(** * Episode link extractor: a shallow embedding of [app.py]

    The program scrapes a listing page for per-episode links, resolves an
    "Instant DL" link on every episode page, polls a rendered page for a
    hosting URL and appends the outcome of the run to a JSON log.

    Conventions of the embedding.
    - A Python [str] is a [string]; a character is a code point below 256.
      Case mapping, whitespace, digits and the case-insensitive matching
      of the two patterns follow Python on that range; texts with other
      characters are outside the embedding.
    - [None] is [None] of an [option]; a Python condition [if x] on an
      optional string is [truthy x].
    - The calls into the HTTP client, the HTML parser, the browser engine,
      [urljoin], the clock and the JSON codec are the fields of the class
      [Collaborators]; the definitions and the properties hold for every
      instance.
    - A raised exception is [Raise e] of [outcome]; stateful code threads a
      [world]. *)

From Stdlib Require Import Bool Arith List Ascii String DecimalString Lia.
Import ListNotations.

Local Open Scope string_scope.
Local Open Scope list_scope.
Local Open Scope bool_scope.
Local Open Scope nat_scope.

(** ** Python strings *)

Module PyStr.

Definition code (c : ascii) : nat := nat_of_ascii c.

(** [str.isspace] and the regex class [\s] on code points below 256. *)
Definition isspace (c : ascii) : bool :=
  let n := code c in
  ((9 <=? n) && (n <=? 13)) || ((28 <=? n) && (n <=? 32))
  || (n =? 133) || (n =? 160).

(** The regex class [\d] on code points below 256. *)
Definition isdigit (c : ascii) : bool :=
  let n := code c in (48 <=? n) && (n <=? 57).

(** [str.lower] on one character. *)
Definition lower_char (c : ascii) : ascii :=
  let n := code c in
  if ((65 <=? n) && (n <=? 90))
     || ((192 <=? n) && (n <=? 222) && negb (n =? 215))
  then ascii_of_nat (n + 32) else c.

Fixpoint lower (s : string) : string :=
  match s with
  | EmptyString => EmptyString
  | String c s' => String (lower_char c) (lower s')
  end.

(** [s.startswith(p)], returning the remainder on success. *)
Fixpoint strip_prefix (p s : string) : option string :=
  match p, s with
  | EmptyString, _ => Some s
  | String a p', String b s' =>
      if Ascii.eqb a b then strip_prefix p' s' else None
  | String _ _, EmptyString => None
  end.

Definition startswith (s p : string) : bool :=
  match strip_prefix p s with Some _ => true | None => false end.

(** [needle in s]. *)
Fixpoint contains (needle s : string) : bool :=
  startswith s needle
  || match s with
     | EmptyString => false
     | String _ s' => contains needle s'
     end.

(** [s.lstrip()], [s.rstrip()] and [s.strip()]. *)
Fixpoint lstrip (s : string) : string :=
  match s with
  | String c s' => if isspace c then lstrip s' else s
  | EmptyString => EmptyString
  end.

Fixpoint rstrip (s : string) : string :=
  match s with
  | EmptyString => EmptyString
  | String c s' =>
      match rstrip s' with
      | EmptyString => if isspace c then EmptyString else String c EmptyString
      | r => String c r
      end
  end.

Definition strip (s : string) : string := rstrip (lstrip s).

Definition is_empty (s : string) : bool :=
  match s with EmptyString => true | _ => false end.

(** Truth value of an optional string: [None] and the empty string are
    false. *)
Definition truthy (o : option string) : bool :=
  match o with
  | Some s => negb (is_empty s)
  | None => false
  end.

(** Longest prefix of characters satisfying [p], and what follows it. *)
Fixpoint span (p : ascii -> bool) (s : string) : string * string :=
  match s with
  | EmptyString => (EmptyString, EmptyString)
  | String c s' =>
      if p c then let (a, b) := span p s' in (String c a, b)
      else (EmptyString, s)
  end.

Fixpoint forall_chars (p : ascii -> bool) (s : string) : bool :=
  match s with
  | EmptyString => true
  | String c s' => p c && forall_chars p s'
  end.

(** [s.endswith("/")]. *)
Fixpoint ends_with_char (c : ascii) (s : string) : bool :=
  match s with
  | EmptyString => false
  | String a EmptyString => Ascii.eqb a c
  | String _ s' => ends_with_char c s'
  end.

(** [sep.join(parts)]. *)
Fixpoint join (sep : string) (parts : list string) : string :=
  match parts with
  | [] => EmptyString
  | [x] => x
  | x :: rest => x ++ sep ++ join sep rest
  end.

(** [x in xs] for a list of strings. *)
Definition mem (x : string) (xs : list string) : bool :=
  existsb (String.eqb x) xs.

(** [re.search] of a pattern that is tried at every position: [here]
    decides whether the pattern matches at the start of its argument. *)
Fixpoint search_at (here : string -> bool) (s : string) : bool :=
  here s
  || match s with
     | EmptyString => false
     | String _ s' => search_at here s'
     end.

(** The value of an optional string that is known to be present. *)
Definition value (o : option string) : string :=
  match o with Some s => s | None => EmptyString end.

Definition first_some {A : Type} (a b : option A) : option A :=
  match a with Some _ => a | None => b end.

End PyStr.

Import PyStr.

(** ** The parsed document

    What the program sees of a BeautifulSoup tree: text nodes, the strings
    that are no text (comments, declarations, the content of script and
    style), and tags with the two attributes it queries.  [attr_class] is
    the multi-valued [class] attribute, empty when the tag has none. *)

Module Soup.

#[warnings="-register-all"]
Inductive node : Type :=
| NavigableString (s : string)
| SpecialString (s : string)
| Tag (name : string) (attr_href : option string) (attr_class : list string)
      (contents : list node).

(** [tag.descendants]: every node below [n], in document order. *)
Fixpoint descendants (n : node) : list node :=
  match n with
  | NavigableString _ | SpecialString _ => []
  | Tag _ _ _ cs => flat_map (fun c => c :: descendants c) cs
  end.

(** The text nodes at or below [n], in document order; the strings that
    are no text are passed over. *)
Fixpoint all_strings (n : node) : list string :=
  match n with
  | NavigableString s => [s]
  | SpecialString _ => []
  | Tag _ _ _ cs => flat_map all_strings cs
  end.

(** [tag.get_text()]. *)
Definition get_text (n : node) : string :=
  String.concat "" (all_strings n).

(** [tag.get_text(strip=True)]: every text node is stripped and dropped
    when nothing is left of it. *)
Definition get_text_strip (n : node) : string :=
  String.concat ""
    (filter (fun t => negb (is_empty t)) (map strip (all_strings n))).

(** [tag.string]: the string of a tag with a single child that is a
    string of either kind, through single-child tags. *)
Fixpoint dot_string (n : node) : option string :=
  match n with
  | NavigableString s | SpecialString s => Some s
  | Tag _ _ _ [c] => dot_string c
  | Tag _ _ _ _ => None
  end.

(** [tag.get('href')]. *)
Definition get_href (n : node) : option string :=
  match n with
  | Tag _ h _ _ => h
  | NavigableString _ | SpecialString _ => None
  end.

Definition is_tag (nm : string) (n : node) : bool :=
  match n with
  | Tag name _ _ _ => String.eqb name nm
  | NavigableString _ | SpecialString _ => false
  end.

Definition has_href (n : node) : bool :=
  match get_href n with Some _ => true | None => false end.

(** A [class_] filter given as a list: a tag matches when one of its
    classes, or its whole class string, is an item of the list. *)
Definition class_matches (wanted : list string) (n : node) : bool :=
  match n with
  | Tag _ _ cls _ =>
      match cls with
      | [] => false
      | _ => existsb (fun c => mem c wanted) cls || mem (join " " cls) wanted
      end
  | NavigableString _ | SpecialString _ => false
  end.

(** [soup.find_all('a', href=True)]. *)
Definition find_all_a_href (soup : node) : list node :=
  filter (fun n => is_tag "a" n && has_href n) (descendants soup).

(** [soup.find('a', class_=wanted)]. *)
Definition find_a_class (wanted : list string) (soup : node) : option node :=
  find (fun n => is_tag "a" n && class_matches wanted n) (descendants soup).

(** [soup.find('a', string=re.compile(pat, re.IGNORECASE))] for a pattern
    [pat] without metacharacters: the tag's [string] must exist and contain
    the pattern up to case. *)
Definition find_a_string_ignorecase (pat : string) (soup : node)
  : option node :=
  find (fun n => is_tag "a" n &&
                 match dot_string n with
                 | Some t => contains (lower pat) (lower t)
                 | None => false
                 end)
       (descendants soup).

End Soup.

Import Soup.

(** ** Exceptions *)

Inductive outcome (A : Type) : Type :=
| Return (a : A)
| Raise (e : string).

Arguments Return {A} a.
Arguments Raise {A} e.

Definition bind_outcome {A B : Type} (m : outcome A) (k : A -> outcome B)
  : outcome B :=
  match m with
  | Return a => k a
  | Raise e => Raise e
  end.

(** ** JSON values, as [json.loads] returns them and [json.dumps] takes
    them; the numbers the program writes are counts. *)

#[warnings="-register-all"]
Inductive json : Type :=
| JNull
| JBool (b : bool)
| JNumber (n : nat)
| JString (s : string)
| JArray (items : list json)
| JObject (fields : list (string * json)).

(** What [json.loads] does with a text: it returns a value, raises
    [JSONDecodeError], or raises another exception (a [RecursionError] on
    a text nested too deep). *)
Inductive loaded : Type :=
| Loaded (data : json)
| JSONDecodeError
| LoadsRaised (e : string).

(** The name Python gives the type of a decoded value, and the message of
    the [AttributeError] for a method the value does not have. *)
Definition type_name (j : json) : string :=
  match j with
  | JNull => "NoneType"
  | JBool _ => "bool"
  | JNumber _ => "int"
  | JString _ => "str"
  | JArray _ => "list"
  | JObject _ => "dict"
  end.

Definition no_attribute (j : json) (attribute : string) : string :=
  "'" ++ type_name j ++ "' object has no attribute '" ++ attribute ++ "'".

(** ** A browser session, as the poller observes it

    [launch] covers starting the browser, the context, the page and the
    request interception; [goto] the navigation.  Every element of [polls]
    is one test of the loop condition: the seconds elapsed since the loop
    started, and what [query_selector_all] and then [get_attribute] on every
    link give if the body runs.  The loop stops at the first reading that
    is not below the budget; a session lists readings up to that one.
    [content] is the final markup; [teardown] is the closing of the
    context and of the browser in the [finally] block. *)

Record session : Type := {
  launch : outcome unit;
  goto : outcome unit;
  polls : list (nat * outcome (list (outcome (option string))));
  content : outcome string;
  teardown : outcome unit
}.

(** ** The collaborators of the program

    [env] is the state of everything outside the program except the log
    file: the network, the browser and the clock. *)

Class Collaborators : Type := {
  env : Type;
  (** [session.get(url)] with [response.text()]: the status and the body,
      or the exception of the transport. *)
  session_get : string -> env -> outcome (nat * string) * env;
  (** [BeautifulSoup(markup, 'html.parser')]: the tree, or the exception
      of the parser. *)
  BeautifulSoup : string -> outcome node;
  (** [urljoin(base, href)]: the absolute URL, or the [ValueError] the
      library raises on a malformed URL. *)
  urljoin : string -> string -> outcome string;
  (** What a browser session opened on the URL goes through. *)
  async_playwright : string -> env -> session * env;
  (** [datetime.now().isoformat()]. *)
  datetime_now_isoformat : env -> string * env;
  (** [json.loads]. *)
  json_loads : string -> loaded;
  (** [json.dumps(value, indent=2)]. *)
  json_dumps : json -> string
}.

(** ** Episode Link Filter: [extract_episode_links] *)

Record episode_link : Type := {
  episode_name : string;
  episode_url : string
}.

(** The test of the first loop on the text of a link. *)
Definition primary_rule (text : string) : bool :=
  contains "Episode" text
  && negb (contains "Season" text)
  && negb (contains "Zip" text).

(** [episode\s*\d+] at the start of a lowercased text. *)
Definition episode_pattern_here (s : string) : bool :=
  match strip_prefix "episode" s with
  | Some r =>
      match snd (span isspace r) with
      | String c _ => isdigit c
      | EmptyString => false
      end
  | None => false
  end.

(** [re.search(r'episode\s*\d+', text, re.IGNORECASE)].  Below 256 a
    letter of the pattern matches exactly the characters that [lower] maps
    to it, and [lower] leaves whitespace and digits alone, so the search
    runs on the lowered text. *)
Definition episode_pattern (text : string) : bool :=
  search_at episode_pattern_here (lower text).

(** The two nested tests of the second loop. *)
Definition fallback_rule (text : string) : bool :=
  episode_pattern text
  && (negb (contains "zip" (lower text))
      && negb (contains "season" (lower text))).

(** One loop over [links], appending a link for every anchor with a
    non-empty href whose stripped text passes [rule]; the loop ends at the
    first href that [urljoin] rejects, with the exception. *)
Fixpoint collect `{Collaborators} (rule : string -> bool) (base_url : string)
  (links : list node) : outcome (list episode_link) :=
  match links with
  | [] => Return []
  | link :: rest =>
      let href := get_href link in
      let text := get_text_strip link in
      if truthy href && rule text
      then
        bind_outcome (urljoin base_url (value href)) (fun full_url =>
        bind_outcome (collect rule base_url rest) (fun episode_links =>
        Return ({| episode_name := text; episode_url := full_url |}
                :: episode_links)))
      else collect rule base_url rest
  end.

Definition extract_episode_links `{Collaborators}
  (html_content base_url : string) : outcome (list episode_link) :=
  bind_outcome (BeautifulSoup html_content) (fun soup =>
  let links := find_all_a_href soup in
  bind_outcome (collect primary_rule base_url links) (fun episode_links =>
  match episode_links with
  | [] => collect fallback_rule base_url links
  | _ :: _ => Return episode_links
  end)).

(** ** Intermediate Link Resolver: the three searches of
    [extract_instant_dl_link]

    Each search answers [Some r] when the function returns [r] at that
    point and [None] when control falls through to the next one. *)

Inductive heuristic : Type := ByClass | ByString | ByText.

Definition heuristic_1 (soup : node) : option (option string) :=
  match find_a_class ["btn"; "btn-danger"] soup with
  | Some instant_dl_link =>
      if contains "Instant DL" (get_text instant_dl_link)
      then Some (get_href instant_dl_link)
      else None
  | None => None
  end.

Definition heuristic_2 (soup : node) : option (option string) :=
  match find_a_string_ignorecase "Instant DL" soup with
  | Some instant_dl_link => Some (get_href instant_dl_link)
  | None => None
  end.

Definition heuristic_3 (soup : node) : option (option string) :=
  match find (fun link =>
                let text := get_text_strip link in
                contains "instant" (lower text) && contains "dl" (lower text))
             (find_all_a_href soup) with
  | Some link => Some (get_href link)
  | None => None
  end.

(** The searches in order; the first component lists the searches that
    were evaluated. *)
Definition find_instant_dl (soup : node) : list heuristic * option string :=
  match heuristic_1 soup with
  | Some r => ([ByClass], r)
  | None =>
      match heuristic_2 soup with
      | Some r => ([ByClass; ByString], r)
      | None =>
          match heuristic_3 soup with
          | Some r => ([ByClass; ByString; ByText], r)
          | None => ([ByClass; ByString; ByText], None)
          end
      end
  end.

(** ** Dynamic Link Poller: [extract_google_drive_link_with_browser] *)

Definition video_downloads_prefix : string :=
  "https://video-downloads.googleusercontent.com".

Definition drive_prefix : string := "https://drive.google.com".

(** The test of the poll loop on one href. *)
Definition accepted (href : string) : bool :=
  startswith href video_downloads_prefix || startswith href drive_prefix.

(** The inner [for] loop over the links of one iteration: [Return (Some h)]
    when the function returns [h], [Return None] when the loop ends. *)
Fixpoint scan_links (links : list (outcome (option string)))
  : outcome (option string) :=
  match links with
  | [] => Return None
  | Raise e :: _ => Raise e
  | Return href :: rest =>
      if truthy href && accepted (value href)
      then Return href
      else scan_links rest
  end.

(** The [while] loop under a budget of [max_wait_time] seconds. *)
Fixpoint poll_loop (max_wait_time : nat)
  (readings : list (nat * outcome (list (outcome (option string)))))
  : outcome (option string) :=
  match readings with
  | [] => Return None
  | (elapsed, body) :: rest =>
      if elapsed <? max_wait_time then
        match body with
        | Raise e => Raise e
        | Return links =>
            match scan_links links with
            | Raise e => Raise e
            | Return (Some href) => Return (Some href)
            | Return None => poll_loop max_wait_time rest
            end
        end
      else Return None
  end.

(** The double quote, code point 34. *)
Definition dquote : ascii := ascii_of_nat 34.

(** The negated class of the fallback pattern: any character but a double
    quote, a single quote, [>] and whitespace. *)
Definition url_char (c : ascii) : bool :=
  negb (Ascii.eqb c dquote || Ascii.eqb c "'" || Ascii.eqb c ">"
        || isspace c).

(** What follows the scheme in the fallback pattern, for one alternative
    [host]: the host, a slash and one or more [url_char]. *)
Definition match_host (host s : string) : option string :=
  match strip_prefix host s with
  | Some r =>
      match strip_prefix "/" r with
      | Some r' =>
          let path := fst (span url_char r') in
          if is_empty path then None else Some (host ++ "/" ++ path)%string
      | None => None
      end
  | None => None
  end.

Definition match_hosts (s : string) : option string :=
  match strip_prefix "://" s with
  | Some r =>
      option_map (String.append "://")
        (first_some (match_host "video-downloads.googleusercontent.com" r)
                    (match_host "drive.google.com" r))
  | None => None
  end.

(** The fallback pattern at the start of [s]: [http], an optional [s],
    [://], one of the two hosts, a slash and one or more [url_char]; the
    matched text, if any. *)
Definition match_google_url (s : string) : option string :=
  match strip_prefix "http" s with
  | Some r =>
      option_map (String.append "http")
        (first_some
           (match strip_prefix "s" r with
            | Some r' => option_map (String.append "s") (match_hosts r')
            | None => None
            end)
           (match_hosts r))
  | None => None
  end.

(** [re.findall]: matches from left to right, without overlap; [skip]
    counts the characters of the last match still to pass. *)
Fixpoint findall_from (skip : nat) (s : string) : list string :=
  match s with
  | EmptyString => []
  | String _ s' =>
      match skip with
      | S k => findall_from k s'
      | O =>
          match match_google_url s with
          | Some m => m :: findall_from (String.length m - 1) s'
          | None => findall_from 0 s'
          end
      end
  end.

Definition findall_google_urls (content : string) : list string :=
  findall_from 0 content.

Definition scheme_char (c : ascii) : bool :=
  let n := code c in
  ((97 <=? n) && (n <=? 122)) || ((65 <=? n) && (n <=? 90))
  || isdigit c || Ascii.eqb c "+" || Ascii.eqb c "-" || Ascii.eqb c ".".

Definition alpha_char (c : ascii) : bool :=
  let n := code c in
  ((97 <=? n) && (n <=? 122)) || ((65 <=? n) && (n <=? 90)).

(** What [urlsplit] leaves after the scheme. *)
Definition after_scheme (url : string) : string :=
  let (pre, post) := span (fun c => negb (Ascii.eqb c ":")) url in
  match pre, post with
  | String c _, String _ rest =>
      if alpha_char c && forall_chars scheme_char pre then rest else url
  | _, _ => url
  end.

(** [urlparse(url).netloc], for a URL whose authority has no bracket. *)
Definition urlparse_netloc (url : string) : string :=
  match strip_prefix "//" (after_scheme url) with
  | Some r =>
      fst (span (fun c => negb (Ascii.eqb c "/" || Ascii.eqb c "?"
                                || Ascii.eqb c "#")) r)
  | None => EmptyString
  end.

(** The loop over the matches of the fallback scan. *)
Fixpoint first_google_url (google_urls : list string) : option string :=
  match google_urls with
  | [] => None
  | url :: rest =>
      if contains "google" (urlparse_netloc url) then Some url
      else first_google_url rest
  end.

(** The inner [try] block on a given session: the navigation, the loop
    and the scan; an exception in it ends in [None]. *)
Definition link_in_page (max_wait_time : nat) (s : session)
  : option string :=
  match goto s with
  | Raise _ => None
  | Return _ =>
      match poll_loop max_wait_time (polls s) with
      | Raise _ => None
      | Return (Some href) => Some href
      | Return None =>
          match content s with
          | Raise _ => None
          | Return markup => first_google_url (findall_google_urls markup)
          end
      end
  end.

(** The function on a given session.  A failure to launch ends in [None]
    before the inner block; after it the [finally] block runs, and an
    exception of the teardown replaces what the inner block returned and
    ends in [None] too. *)
Definition link_from_session (max_wait_time : nat) (s : session)
  : option string :=
  match launch s with
  | Raise _ => None
  | Return _ =>
      let found := link_in_page max_wait_time s in
      match teardown s with
      | Raise _ => None
      | Return _ => found
      end
  end.

(** ** State and exceptions

    The log file is the only file the pipeline touches.  It is missing,
    or it holds a text, or it holds bytes that do not decode as text, in
    which case reading it raises a [UnicodeDecodeError] with the message
    [e]. *)

Inductive log_file : Type :=
| Missing
| Holds (text : string)
| Undecodable (e : string).

Record world `{Collaborators} : Type := {
  outside : env;
  results_file : log_file
}.

Definition M `{Collaborators} (A : Type) : Type :=
  world -> outcome A * world.

Definition ret `{Collaborators} {A : Type} (a : A) : M A :=
  fun w => (Return a, w).

Definition bind `{Collaborators} {A B : Type} (m : M A) (k : A -> M B)
  : M B :=
  fun w =>
    match m w with
    | (Return a, w') => k a w'
    | (Raise e, w') => (Raise e, w')
    end.

Definition lift `{Collaborators} {A : Type} (o : outcome A) : M A :=
  fun w => (o, w).

(** [try: m except Exception as e: handler e]. *)
Definition try_except `{Collaborators} {A : Type} (m : M A)
  (handler : string -> M A) : M A :=
  fun w =>
    match m w with
    | (Return a, w') => (Return a, w')
    | (Raise e, w') => handler e w'
    end.

(** A call that only changes the outside world. *)
Definition call `{Collaborators} {A : Type} (f : env -> A * env) : M A :=
  fun w =>
    let (a, e) := f (outside w) in
    (Return a, {| outside := e; results_file := results_file w |}).

Notation "x <- m ;; k" := (bind m (fun x => k))
  (at level 61, m at next level, right associativity).

(** ** Page Fetcher: [fetch_page] *)

Definition fetch_page `{Collaborators} (url : string) : M (option string) :=
  response <- call (session_get url) ;;
  match response with
  | Return (status, text) =>
      if status =? 200 then ret (Some text) else ret None
  | Raise _ => ret None
  end.

Definition extract_instant_dl_link `{Collaborators} (episode_url : string)
  : M (option string) :=
  html_content <- fetch_page episode_url ;;
  if negb (truthy html_content) then ret None
  else
    soup <- lift (BeautifulSoup (value html_content)) ;;
    ret (snd (find_instant_dl soup)).

Definition extract_google_drive_link_with_browser `{Collaborators}
  (instant_dl_url : string) (max_wait_time : nat) : M (option string) :=
  s <- call (async_playwright instant_dl_url) ;;
  ret (link_from_session max_wait_time s).

(** ** Pipeline Orchestrator: [process_main_url]

    An EpisodeResult is a dict with string keys and string values, in
    insertion order. *)

Definition dict : Type := list (string * string).

Fixpoint dict_get (key : string) (d : dict) : option string :=
  match d with
  | [] => None
  | (k, v) :: rest => if String.eqb k key then Some v else dict_get key rest
  end.

Definition failed_result (episode_name error : string) : dict :=
  [("episode", episode_name); ("status", "failed"); ("error", error)].

Definition partial_result (episode_name episode_url instant_dl_url : string)
  : dict :=
  [("episode", episode_name); ("episode_url", episode_url);
   ("instant_dl_url", instant_dl_url); ("status", "partial");
   ("error", "Final download link not found with headless browser")].

Definition success_result
  (episode_name episode_url instant_dl_url final_download_link
     timestamp : string) : dict :=
  [("episode", episode_name); ("episode_url", episode_url);
   ("instant_dl_url", instant_dl_url);
   ("final_download_link", final_download_link); ("status", "success");
   ("timestamp", timestamp)].

(** The body of the [for] loop for one episode; the delays between the
    steps change no data and are left out.  The result is [results] after
    the append of this iteration; an exception can only come before the
    append, from the resolver, so the handler appends to the list the
    iteration started with. *)
Definition process_episode `{Collaborators} (episode : episode_link)
  (results : list dict) : M (list dict) :=
  let episode_name := episode_name episode in
  let episode_url := episode_url episode in
  try_except
    (instant_dl_url <- extract_instant_dl_link episode_url ;;
     if negb (truthy instant_dl_url)
     then ret (results
               ++ [failed_result episode_name "Instant DL link not found"])
     else
       final_download_link <-
         extract_google_drive_link_with_browser (value instant_dl_url) 30 ;;
       if negb (truthy final_download_link)
       then ret (results
                 ++ [partial_result episode_name episode_url
                       (value instant_dl_url)])
       else
         timestamp <- call datetime_now_isoformat ;;
         ret (results
              ++ [success_result episode_name episode_url
                    (value instant_dl_url) (value final_download_link)
                    timestamp]))
    (fun e => ret (results ++ [failed_result episode_name e])).

Fixpoint process_episodes `{Collaborators} (episode_links : list episode_link)
  (results : list dict) : M (list dict) :=
  match episode_links with
  | [] => ret results
  | episode :: rest =>
      results' <- process_episode episode results ;;
      process_episodes rest results'
  end.

(** ** Result Store: [save_results] *)

Record run_record : Type := {
  main_url : string;
  processed_at : string;
  total_episodes : nat;
  successful : nat;
  failed : nat;
  partial : nat;
  episodes : list dict
}.

(** [len([r for r in results if r['status'] == status])]; a result
    without the key raises [KeyError], whose message is the key in
    quotes. *)
Fixpoint count_status (status : string) (results : list dict)
  : outcome nat :=
  match results with
  | [] => Return 0
  | r :: rest =>
      match dict_get "status" r with
      | None => Raise "'status'"
      | Some v =>
          bind_outcome (count_status status rest) (fun n =>
          Return (if String.eqb v status then S n else n))
      end
  end.

Definition dict_json (d : dict) : json :=
  JObject (map (fun kv => (fst kv, JString (snd kv))) d).

Definition run_record_json (data : run_record) : json :=
  JObject
    [("main_url", JString (main_url data));
     ("processed_at", JString (processed_at data));
     ("total_episodes", JNumber (total_episodes data));
     ("successful", JNumber (successful data));
     ("failed", JNumber (failed data));
     ("partial", JNumber (partial data));
     ("episodes", JArray (map dict_json (episodes data)))].

(** The block that loads the existing log: a missing file, an empty file
    and a [JSONDecodeError] all give the empty list; the handler names no
    other exception, so a file that does not decode and any other
    exception of the decoder leave the function. *)
Definition load_existing `{Collaborators} : M json :=
  fun w =>
    match results_file w with
    | Missing => (Return (JArray []), w)
    | Undecodable e => (Raise e, w)
    | Holds content =>
        if is_empty content then (Return (JArray []), w)
        else
          match json_loads content with
          | Loaded existing_data => (Return existing_data, w)
          | JSONDecodeError => (Return (JArray []), w)
          | LoadsRaised e => (Raise e, w)
          end
    end.

Definition write_results_file `{Collaborators} (text : string) : M unit :=
  fun w => (Return tt, {| outside := outside w; results_file := Holds text |}).

(** The dict [data] that [save_results] builds first, at the time
    [processed_at]. *)
Definition make_data (main_url processed_at : string) (results : list dict)
  : outcome run_record :=
  bind_outcome (count_status "success" results) (fun successful =>
  bind_outcome (count_status "failed" results) (fun failed =>
  bind_outcome (count_status "partial" results) (fun partial =>
  Return {| main_url := main_url;
            processed_at := processed_at;
            total_episodes := List.length results;
            successful := successful;
            failed := failed;
            partial := partial;
            episodes := results |}))).

Definition save_results `{Collaborators} (main_url : string)
  (results : list dict) : M unit :=
  processed_at <- call datetime_now_isoformat ;;
  data <- lift (make_data main_url processed_at results) ;;
  existing_data <- load_existing ;;
  match existing_data with
  | JArray items =>
      write_results_file (json_dumps (JArray (items ++ [run_record_json data])))
  | _ => lift (Raise (no_attribute existing_data "append"))
  end.

(** What [process_main_url] returns: the error dict or the result list. *)
Inductive run_output : Type :=
| error_object (error : string)
| result_list (results : list dict).

Definition process_main_url `{Collaborators} (main_url : string)
  : M run_output :=
  html_content <- fetch_page main_url ;;
  if negb (truthy html_content)
  then ret (error_object "Failed to fetch main page")
  else
    episode_links <-
      lift (extract_episode_links (value html_content) main_url) ;;
    match episode_links with
    | [] => ret (error_object "No episode links found")
    | _ :: _ =>
        results <- process_episodes episode_links [] ;;
        _ <- save_results main_url results ;;
        ret (result_list results)
    end.

(** ** File download endpoint: [download_file] *)

(** [os.path.basename] on POSIX: what follows the last slash. *)
Fixpoint basename (p : string) : string :=
  match p with
  | EmptyString => EmptyString
  | String c p' =>
      if contains "/" p' then basename p'
      else if Ascii.eqb c "/" then p' else p
  end.

(** [os.path.join] of two components on POSIX. *)
Definition path_join (a b : string) : string :=
  if startswith b "/" then b
  else if is_empty a || ends_with_char "/" a then (a ++ b)%string
  else (a ++ "/" ++ b)%string.

(** The file system as the handler queries it. *)
Record filesystem : Type := {
  getcwd : string;
  path_exists : string -> bool;
  path_isfile : string -> bool
}.

Inductive response : Type :=
| Response (status : nat) (text : string)
| FileResponse (path : string).

Definition download_file (fs : filesystem) (filename : option string)
  : response :=
  if negb (truthy filename) then Response 400 "Filename is required"
  else
    let safe_name := basename (value filename) in
    let file_path := path_join (getcwd fs) safe_name in
    if negb (path_exists fs file_path) || negb (path_isfile fs file_path)
    then Response 404 "File not found"
    else FileResponse file_path.

(** ** Request interception: [block_ads] *)

Definition ad_domains : list string :=
  ["ghastlyejection.com"; "adf.ly"; "ad-maven.com"; "adsterra.com";
   "propellerads.com"; "outbrain.com"; "taboola.com"].

Inductive route_action : Type := route_abort | route_continue.

Definition block_ads (request_url : string) : route_action :=
  if existsb (fun ad_domain => contains ad_domain request_url) ad_domains
  then route_abort
  else route_continue.

(** ** The endpoints [get_results] and [process_url]

    Both answer with a JSON body. *)

(** [get_results]: the stored log, or the empty list when the file is
    missing or when reading or decoding it raises anything. *)
Definition get_results `{Collaborators} : M json :=
  fun w =>
    match results_file w with
    | Holds content =>
        match json_loads content with
        | Loaded data => (Return data, w)
        | JSONDecodeError | LoadsRaised _ => (Return (JArray []), w)
        end
    | Missing | Undecodable _ => (Return (JArray []), w)
    end.

(** Truth value of a JSON value as Python sees the decoded object. *)
Definition json_truthy (j : json) : bool :=
  match j with
  | JNull => false
  | JBool b => b
  | JNumber n => negb (n =? 0)
  | JString s => negb (is_empty s)
  | JArray items => match items with [] => false | _ :: _ => true end
  | JObject fields => match fields with [] => false | _ :: _ => true end
  end.

(** [data.get(key)] on a decoded object: of two fields with the same key
    the decoder keeps the later one. *)
Fixpoint json_get (key : string) (fields : list (string * json))
  : option json :=
  match fields with
  | [] => None
  | (k, v) :: rest =>
      match json_get key rest with
      | Some later => Some later
      | None => if String.eqb k key then Some v else None
      end
  end.

(** The body [web.json_response] sends for what a run returned. *)
Definition run_output_json (o : run_output) : json :=
  match o with
  | error_object error => JObject [("error", JString error)]
  | result_list results => JArray (map dict_json results)
  end.

Definition url_required : json :=
  JObject [("error", JString "URL is required")].

(** [process_url] on the decoded body of the request, or on the exception
    decoding it raised.  A truthy [url] that is not a string makes the
    HTTP client raise inside [fetch_page], which answers [None]. *)
Definition process_url `{Collaborators} (request_json : outcome json)
  : M json :=
  try_except
    (data <- lift request_json ;;
     url <- lift (match data with
                  | JObject fields => Return (json_get "url" fields)
                  | _ => Raise (no_attribute data "get")
                  end) ;;
     match url with
     | None => ret url_required
     | Some u =>
         if negb (json_truthy u) then ret url_required
         else
           results <- match u with
                      | JString main_url => process_main_url main_url
                      | _ => ret (error_object "Failed to fetch main page")
                      end ;;
           ret (run_output_json results)
     end)
    (fun e => ret (JObject [("error", JString e)])).

(** ** Notions the properties are stated with *)

(** The number of results whose status field is [status]. *)
Definition tally (status : string) (results : list dict) : nat :=
  List.length
    (filter (fun r => match dict_get "status" r with
                      | Some v => String.eqb v status
                      | None => false
                      end) results).

(** The result has a status field. *)
Definition has_status (r : dict) : Prop := dict_get "status" r <> None.

(** The status of a result is one of the three the data model allows. *)
Definition status_in_range (r : dict) : Prop :=
  dict_get "status" r = Some "success"
  \/ dict_get "status" r = Some "partial"
  \/ dict_get "status" r = Some "failed".

(** A successful result carries a non-empty final link. *)
Definition success_has_link (r : dict) : Prop :=
  dict_get "status" r = Some "success" ->
  exists link, dict_get "final_download_link" r = Some link
               /\ link <> EmptyString.

(** The final link is present exactly in the successful results. *)
Definition link_iff_success (r : dict) : Prop :=
  dict_get "final_download_link" r <> None
  <-> dict_get "status" r = Some "success".

(** A text free of the two words the first loop excludes. *)
Definition no_season_no_zip (l : episode_link) : Prop :=
  contains "Season" (episode_name l) = false
  /\ contains "Zip" (episode_name l) = false.

(** The three shapes of a result the loop appends; the final link of a
    success is not empty. *)
Inductive produced : dict -> Prop :=
| produced_failed (episode_name error : string) :
    produced (failed_result episode_name error)
| produced_partial (episode_name episode_url instant_dl_url : string) :
    produced (partial_result episode_name episode_url instant_dl_url)
| produced_success
    (episode_name episode_url instant_dl_url final_download_link
       timestamp : string) :
    final_download_link <> EmptyString ->
    produced (success_result episode_name episode_url instant_dl_url
                final_download_link timestamp).

(** The record of a list of results, with the tallies for counts. *)
Definition record_of (main_url processed_at : string) (results : list dict)
  : run_record :=
  {| main_url := main_url;
     processed_at := processed_at;
     total_episodes := List.length results;
     successful := tally "success" results;
     failed := tally "failed" results;
     partial := tally "partial" results;
     episodes := results |}.

(** The tag carries the class [c]. *)
Definition carries_class (c : string) (n : node) : Prop :=
  match n with
  | Tag _ _ cls _ => In c cls
  | NavigableString _ | SpecialString _ => False
  end.

(** An anchor with the given href, classes and text. *)
Definition anchor (href : option string) (cls : list string) (text : string)
  : node :=
  Tag "a" href cls [NavigableString text].

Definition document (body : list node) : node :=
  Tag "[document]" None [] body.

(** The listing of the three-anchor scenario. *)
Definition three_anchor_listing (h1 h2 : string) (h3 : option string)
  : node :=
  document [anchor (Some h1) [] "Episode 1";
            anchor (Some h2) [] "Episode 2";
            anchor h3 [] "Season Zip"].

(** The prefixes of a match of the fallback pattern under the plain
    [http] scheme. *)
Definition plain_http_prefixes : list string :=
  ["http://video-downloads.googleusercontent.com/";
   "http://drive.google.com/"].

(** The four beginnings of a URL the poller can return. *)
Definition google_prefixes : list string :=
  video_downloads_prefix :: drive_prefix :: plain_http_prefixes.

(** The link the filter makes of an anchor, and the anchors a rule lets
    through. *)
Definition link_of `{Collaborators} (base_url : string) (link : node)
  : outcome episode_link :=
  bind_outcome (urljoin base_url (value (get_href link))) (fun full_url =>
  Return {| episode_name := get_text_strip link;
            episode_url := full_url |}).

(** [f] on every element in turn, up to the first exception. *)
Fixpoint map_outcome {A B : Type} (f : A -> outcome B) (l : list A)
  : outcome (list B) :=
  match l with
  | [] => Return []
  | x :: rest =>
      bind_outcome (f x) (fun y =>
      bind_outcome (map_outcome f rest) (fun ys => Return (y :: ys)))
  end.

Definition passes (rule : string -> bool) (link : node) : bool :=
  truthy (get_href link) && rule (get_text_strip link).

(** The lowercased text holds both words of the third search. *)
Definition instant_and_dl (text : string) : bool :=
  contains "instant" (lower text) && contains "dl" (lower text).

(** The result the loop appends for [episode]: failed, with any error;
    partial, with a non-empty intermediate link; or success, with a
    non-empty intermediate link and a non-empty final link that a browser
    session gave under the default budget. *)
Inductive result_of (episode : episode_link) : dict -> Prop :=
| result_failed (error : string) :
    result_of episode (failed_result (episode_name episode) error)
| result_partial (instant_dl_url : string) :
    instant_dl_url <> EmptyString ->
    result_of episode
      (partial_result (episode_name episode) (episode_url episode)
         instant_dl_url)
| result_success (instant_dl_url final_download_link timestamp : string)
    (s : session) :
    instant_dl_url <> EmptyString ->
    final_download_link <> EmptyString ->
    link_from_session 30 s = Some final_download_link ->
    result_of episode
      (success_result (episode_name episode) (episode_url episode)
         instant_dl_url final_download_link timestamp).

(** The fields of a result beside the final link: the episode name is
    always there, the error in all but the successes, the timestamp in the
    successes only, the two URLs in all but the failures. *)
Definition well_shaped (r : dict) : Prop :=
  dict_get "episode" r <> None
  /\ (dict_get "error" r <> None <-> dict_get "status" r <> Some "success")
  /\ (dict_get "timestamp" r <> None <-> dict_get "status" r = Some "success")
  /\ (dict_get "episode_url" r <> None
      <-> dict_get "status" r <> Some "failed")
  /\ (dict_get "instant_dl_url" r <> None
      <-> dict_get "status" r <> Some "failed").

(** A successful result whose final link begins like a hosting URL. *)
Definition success_link_is_google (r : dict) : Prop :=
  dict_get "status" r = Some "success" ->
  exists link,
    dict_get "final_download_link" r = Some link
    /\ Exists (fun p => startswith link p = true) google_prefixes.

(** The result names the episode it was made for and, unless it failed,
    the page of that episode. *)
Definition names_episode (episode : episode_link) (r : dict) : Prop :=
  dict_get "episode" r = Some (episode_name episode)
  /\ (dict_get "status" r <> Some "failed" ->
      dict_get "episode_url" r = Some (episode_url episode)).

(** The four beginnings of a match of the fallback pattern, up to the
    slash after the host. *)
Definition pattern_prefixes : list string :=
  "https://video-downloads.googleusercontent.com/"
  :: "https://drive.google.com/" :: plain_http_prefixes.

(** A link whose href reads without an exception, and a reading of the
    clock at which every link does. *)
Definition seen (href : string) : outcome (option string) :=
  Return (Some href).

Definition reading (r : nat * list string)
  : nat * outcome (list (outcome (option string))) :=
  (fst r, Return (map seen (snd r))).

(** A reading within the budget none of whose links is accepted. *)
Definition fruitless (max_wait_time : nat) (r : nat * list string) : Prop :=
  fst r < max_wait_time /\ Forall (fun h => accepted h = false) (snd r).

(** ** A stand-in for the collaborators

    A small closed world to run the pipeline on: pages by URL, parse trees
    by markup, browser sessions by URL.  The outside state counts the calls
    made; the clock reads it. *)

Fixpoint assoc {A : Type} (key : string) (l : list (string * A))
  : option A :=
  match l with
  | [] => None
  | (k, v) :: rest => if String.eqb k key then Some v else assoc key rest
  end.

Record site : Type := {
  pages : list (string * (nat * string));
  documents : list (string * node);
  sessions : list (string * session)
}.

Definition no_browser : session :=
  {| launch := Raise "Executable doesn't exist";
     goto := Return tt;
     polls := [];
     content := Return EmptyString;
     teardown := Return tt |}.

(** A serializer without escapes, enough for the values of the stand-in. *)
Fixpoint dumps (j : json) : string :=
  match j with
  | JNull => "null"
  | JBool b => if b then "true" else "false"
  | JNumber n => NilZero.string_of_uint (Nat.to_uint n)
  | JString s => String dquote (s ++ String dquote EmptyString)
  | JArray items => "[" ++ String.concat ", " (map dumps items) ++ "]"
  | JObject fields =>
      "{" ++ String.concat ", "
               (map (fun kv => match kv with
                               | (k, v) =>
                                   String dquote
                                     (k ++ String dquote (": " ++ dumps v))
                               end) fields)
          ++ "}"
  end.

Definition stub (s : site) : Collaborators :=
  {| env := nat;
     session_get := fun url e =>
       (match assoc url (pages s) with
        | Some r => Return r
        | None => Raise "ClientConnectorError"
        end, S e);
     BeautifulSoup := fun markup =>
       match assoc markup (documents s) with
       | Some tree => Return tree
       | None => Raise "ParserRejectedMarkup"
       end;
     urljoin := fun base href =>
       if xorb (contains "[" href) (contains "]" href)
       then Raise "Invalid IPv6 URL"
       else if startswith href "http" then Return href
       else Return (base ++ href)%string;
     async_playwright := fun url e =>
       (match assoc url (sessions s) with
        | Some b => b
        | None => no_browser
        end, S e);
     datetime_now_isoformat := fun e =>
       (("T" ++ NilZero.string_of_uint (Nat.to_uint e))%string, S e);
     json_loads := fun text =>
       if String.eqb text "[]" then Loaded (JArray []) else JSONDecodeError;
     json_dumps := dumps |}.

(** The stand-in with a decoder that knows the documents [known]: it
    inverts [dumps] on them and rejects every other text. *)
Definition stub_with_codec (s : site) (known : list json) : Collaborators :=
  {| env := nat;
     session_get := @session_get (stub s);
     BeautifulSoup := @BeautifulSoup (stub s);
     urljoin := @urljoin (stub s);
     async_playwright := @async_playwright (stub s);
     datetime_now_isoformat := @datetime_now_isoformat (stub s);
     json_loads := fun text =>
       match find (fun j => String.eqb (dumps j) text) known with
       | Some j => Loaded j
       | None => JSONDecodeError
       end;
     json_dumps := dumps |}.

(** ** Inputs of the examples *)

(** A session whose budget is spent at the first reading of the clock. *)
Definition exhausted_session (markup : string) : session :=
  {| launch := Return tt;
     goto := Return tt;
     polls := [(30, Return [])];
     content := Return markup;
     teardown := Return tt |}.

Definition plain_http_markup : string :=
  "<a href='http://drive.google.com/file/1'>mirror</a>".

Definition ad_url : string :=
  "https://ads.example.com/x?u=https://drive.google.com/file/1".

(** The ad link is there from the start, the drive link two polls later. *)
Definition late_link_session : session :=
  {| launch := Return tt;
     goto := Return tt;
     polls := [(0, Return [Return (Some ad_url)]);
               (2, Return [Return (Some ad_url)]);
               (4, Return [Return (Some ad_url);
                           Return (Some "https://drive.google.com/file/2")])];
     content := Return EmptyString;
     teardown := Return tt |}.

(** A listing whose only anchor reads like an episode but names a zip. *)
Definition zip_listing : node :=
  document [anchor (Some "/e1") [] "episode 1 zip"].

(** A listing the first loop rejects and the second accepts. *)
Definition uppercase_listing : node :=
  document [anchor (Some "/e3") [] "EPISODE 3"].

(** An episode page with the styled button and a decoy. *)
Definition button_page : node :=
  document [anchor (Some "https://inter.example/1") ["btn"; "btn-danger"]
              "Instant DL";
            anchor (Some "https://inter.example/decoy") [] "instant download"].

Definition second_button_page : node :=
  document [anchor (Some "https://inter.example/2") ["btn"; "btn-danger"]
              "Instant DL"].

(** The site the examples run on: a listing with two episodes and a season
    archive; the first episode resolves, the second has no browser
    session. *)
Definition demo : site :=
  {| pages :=
       [("https://site.example/show", (200, "listing markup"));
        ("https://site.example/e1", (200, "episode one"));
        ("https://site.example/e2", (200, "episode two"));
        ("https://site.example/gone", (404, "not found"));
        ("https://site.example/bare", (200, "zip markup"))];
     documents :=
       [("listing markup",
         three_anchor_listing "https://site.example/e1"
           "https://site.example/e2" (Some "https://site.example/season.zip"));
        ("episode one", button_page);
        ("episode two", second_button_page);
        ("zip markup", zip_listing);
        ("uppercase markup", uppercase_listing)];
     sessions := [("https://inter.example/1", late_link_session)] |}.

(** Pages that tell the first search of the resolver from its description:
    a button with one of the two classes only, a button whose text differs
    in case, and a button that is not the first of its class. *)
Definition single_class_page : node :=
  document [anchor (Some "/dl") ["btn"] "Instant DL"].

Definition lowercase_button_page : node :=
  document [anchor (Some "/dl") ["btn"; "btn-danger"] "instant dl"].

Definition home_then_button_page : node :=
  document [anchor (Some "/") ["btn"; "btn-danger"] "Home";
            anchor (Some "/dl") ["btn"; "btn-danger"] "Get Instant DL now"].

(** A run of the pipeline on the site, from a world without a log. *)
Definition fresh_world : @world (stub demo) :=
  @Build_world (stub demo) 0 Missing.

Definition demo_run : outcome run_output * @world (stub demo) :=
  @process_main_url (stub demo) "https://site.example/show" fresh_world.

(** A world whose log file does not hold JSON. *)
Definition corrupt_world : @world (stub demo) :=
  @Build_world (stub demo) 0 (Holds "{not json").

(** A working directory with one file in it. *)
Definition one_file_fs : filesystem :=
  {| getcwd := "/srv/app";
     path_exists := fun p => String.eqb p "/srv/app/extracted_links.json"
                             || String.eqb p "/srv/app";
     path_isfile := fun p => String.eqb p "/srv/app/extracted_links.json" |}.

(** An episode page whose link text is split over several tags, and a
    page without any download link. *)
Definition split_text_page : node :=
  document [Tag "a" (Some "/dl") []
              [Tag "b" None [] [NavigableString "Instant"];
               NavigableString " ";
               Tag "i" None [] [NavigableString "DL"]]].

Definition plain_page : node :=
  document [anchor (Some "/") [] "Home";
            Tag "a" None [] [NavigableString "instant";
                             NavigableString "dl"]].

(** A log of one earlier run, a world that holds it, a world whose log is
    a JSON object, and the stand-in whose decoder knows the two logs that
    matter here. *)
Definition earlier_record : json :=
  run_record_json
    (record_of "https://site.example/old" "T0"
       [failed_result "Pilot" "Instant DL link not found"]).

Definition one_failure : list dict :=
  [failed_result "Episode 1" "Instant DL link not found"].

Definition later_log : json :=
  JArray [earlier_record;
          run_record_json
            (record_of "https://site.example/show" "T5" one_failure)].

Definition logged : Collaborators :=
  stub_with_codec demo [JArray [earlier_record]; later_log; JObject []].

Definition logged_world : @world logged :=
  @Build_world logged 5 (Holds (dumps (JArray [earlier_record]))).

Definition object_world : @world logged :=
  @Build_world logged 5 (Holds (dumps (JObject []))).

(** A site whose only page the parser rejects, and an episode on it. *)
Definition garbled : site :=
  {| pages := [("https://site.example/e9", (200, "<<garbled"))];
     documents := [];
     sessions := [] |}.

Definition ninth_episode : episode_link :=
  {| episode_name := "Episode 9";
     episode_url := "https://site.example/e9" |}.

(** Listings at the edge of the filter: the three anchors of the scenario
    with an empty href, or none, on the first, and an anchor whose href
    [urljoin] rejects. *)
Definition bracket_listing : node :=
  document [anchor (Some "http://[x") [] "episode 1"].

Definition edge : site :=
  {| pages := [];
     documents :=
       [("empty href markup",
         three_anchor_listing "" "https://site.example/e2"
           (Some "https://site.example/season.zip"));
        ("no href markup",
         document [anchor None [] "Episode 1";
                   anchor (Some "https://site.example/e2") [] "Episode 2";
                   anchor (Some "https://site.example/season.zip") []
                     "Season Zip"]);
        ("bracket markup", bracket_listing)];
     sessions := [] |}.

(** A world whose log file holds bytes that are no UTF-8 text. *)
Definition invalid_start_byte : string :=
  "'utf-8' codec can't decode byte 0xff in position 0: invalid start byte".

Definition undecodable_world : @world (stub demo) :=
  @Build_world (stub demo) 0 (Undecodable invalid_start_byte).

(** * Properties *)

(** ** Strings *)

Lemma strip_prefix_app p s r : strip_prefix p s = Some r -> s = (p ++ r)%string.
Proof.
  revert s; induction p as [|a p IH]; intros s H; simpl in *.
  - now inversion H.
  - destruct s as [|b s]; [discriminate|].
    destruct (Ascii.eqb a b) eqn:E; [|discriminate].
    apply Ascii.eqb_eq in E; subst b.
    now rewrite (IH _ H).
Qed.

Lemma strip_prefix_of_app p r : strip_prefix p (p ++ r)%string = Some r.
Proof.
  induction p as [|a p IH]; simpl; [reflexivity|].
  now rewrite Ascii.eqb_refl.
Qed.

Lemma startswith_app s p :
  startswith s p = true <-> exists r, s = (p ++ r)%string.
Proof.
  unfold startswith; split.
  - destruct (strip_prefix p s) eqn:E; [|discriminate].
    intros _; eexists; eauto using strip_prefix_app.
  - intros [r ->]. now rewrite strip_prefix_of_app.
Qed.

Lemma contains_cons needle c s :
  contains needle s = true -> contains needle (String c s) = true.
Proof.
  intros H. cbn [contains]. rewrite H. apply orb_true_r.
Qed.



(** ** Dynamic Link Poller *)

Lemma match_host_prefix host s m :
  match_host host s = Some m -> startswith m (host ++ "/") = true.
Proof.
  unfold match_host.
  destruct (strip_prefix host s) as [r|]; [|discriminate].
  destruct (strip_prefix "/" r) as [r'|]; [|discriminate].
  destruct (is_empty (fst (span url_char r'))); [discriminate|].
  intros [= <-]. apply startswith_app.
  exists (fst (span url_char r')).
  clear. induction host; simpl; congruence.
Qed.

Lemma match_hosts_prefix s m :
  match_hosts s = Some m ->
  startswith m "://video-downloads.googleusercontent.com/" = true
  \/ startswith m "://drive.google.com/" = true.
Proof.
  unfold match_hosts.
  destruct (strip_prefix "://" s) as [r|]; [|discriminate].
  destruct (match_host "video-downloads.googleusercontent.com" r)
    as [m1|] eqn:E1; cbn [first_some option_map].
  - intros [= <-]. left.
    apply match_host_prefix, startswith_app in E1 as [t ->]. reflexivity.
  - destruct (match_host "drive.google.com" r) as [m2|] eqn:E2;
      [|discriminate].
    intros [= <-]. right.
    apply match_host_prefix, startswith_app in E2 as [t ->]. reflexivity.
Qed.

Lemma match_google_url_prefix s m :
  match_google_url s = Some m ->
  accepted m = true
  \/ Exists (fun p => startswith m p = true) plain_http_prefixes.
Proof.
  unfold match_google_url.
  destruct (strip_prefix "http" s) as [r|]; [|discriminate].
  destruct (strip_prefix "s" r) as [r'|].
  - destruct (match_hosts r') as [m1|] eqn:E1; cbn [first_some option_map].
    + intros [= <-]. left.
      apply match_hosts_prefix in E1 as [E1|E1];
        apply startswith_app in E1 as [t ->]; reflexivity.
    + destruct (match_hosts r) as [m2|] eqn:E2; [|discriminate].
      intros [= <-]. right.
      apply match_hosts_prefix in E2 as [E2|E2];
        apply startswith_app in E2 as [t ->].
      * apply Exists_cons_hd. reflexivity.
      * apply Exists_cons_tl, Exists_cons_hd. reflexivity.
  - cbn [first_some option_map].
    destruct (match_hosts r) as [m2|] eqn:E2; [|discriminate].
    intros [= <-]. right.
    apply match_hosts_prefix in E2 as [E2|E2];
      apply startswith_app in E2 as [t ->].
    + apply Exists_cons_hd. reflexivity.
    + apply Exists_cons_tl, Exists_cons_hd. reflexivity.
Qed.

Lemma findall_from_match skip s m :
  In m (findall_from skip s) -> exists t, match_google_url t = Some m.
Proof.
  revert skip; induction s as [|c s IH]; intros skip H; simpl in H.
  - contradiction.
  - destruct skip as [|k]; [|eauto].
    destruct (match_google_url (String c s)) as [m'|] eqn:E.
    + destruct H as [<-|H]; eauto.
    + eauto.
Qed.

Lemma first_google_url_In urls url :
  first_google_url urls = Some url -> In url urls.
Proof.
  induction urls as [|u urls IH]; simpl; [discriminate|].
  destruct (contains "google" (urlparse_netloc u)).
  - intros [= <-]. now left.
  - intros H. right. auto.
Qed.

Lemma scan_links_accepted links href :
  scan_links links = Return (Some href) -> accepted href = true.
Proof.
  induction links as [|[h|e] links IH]; simpl; try discriminate.
  destruct (truthy h && accepted (value h)) eqn:E; [|exact IH].
  intros [= ->]. apply andb_prop in E as [_ E]. exact E.
Qed.

Lemma poll_loop_accepted budget readings href :
  poll_loop budget readings = Return (Some href) -> accepted href = true.
Proof.
  induction readings as [|[elapsed body] readings IH]; simpl;
    [discriminate|].
  destruct (elapsed <? budget); [|discriminate].
  destruct body as [links|e]; [|discriminate].
  destruct (scan_links links) as [[h|]|e] eqn:E; try discriminate.
  - intros [= ->]. eauto using scan_links_accepted.
  - exact IH.
Qed.

(** C1, as the code has it: a URL the poller returns starts with one of the
    two accepted https prefixes when it comes from the poll loop; when it
    comes from the scan of the final markup, after a loop that found
    nothing, it starts with one of those prefixes or with their plain-http
    forms.  A URL that only carries an accepted host in its query string is
    therefore never returned as such. *)
Theorem poller_link_prefix (max_wait_time : nat) (s : session)
  (url : string) :
  link_from_session max_wait_time s = Some url ->
  accepted url = true
  \/ (poll_loop max_wait_time (polls s) = Return None
      /\ Exists (fun p => startswith url p = true) plain_http_prefixes).
Proof.
  unfold link_from_session, link_in_page.
  destruct (launch s); [|discriminate].
  destruct (teardown s); [|discriminate].
  destruct (goto s); [|discriminate].
  destruct (poll_loop max_wait_time (polls s)) as [[href|]|e] eqn:Hloop;
    [| |discriminate].
  - intros [= ->]. left. eauto using poll_loop_accepted.
  - destruct (content s) as [markup|e]; [|discriminate].
    intros H. apply first_google_url_In in H.
    apply findall_from_match in H as [t H].
    apply match_google_url_prefix in H as [H|H]; auto.
Qed.

Lemma poller_link_prefix_witness :
  link_from_session 30 late_link_session
  = Some "https://drive.google.com/file/2"
  /\ (accepted "https://drive.google.com/file/2" = true
      \/ (poll_loop 30 (polls late_link_session) = Return None
          /\ Exists (fun p => startswith "https://drive.google.com/file/2" p
                              = true) plain_http_prefixes)).
Proof.
  split; [reflexivity|].
  apply (poller_link_prefix 30 late_link_session). reflexivity.
Defined.

(** C1 as stated fails on the fallback scan: with the budget spent, a
    plain-http drive URL in the final markup is returned although it starts
    with neither accepted prefix. *)
Lemma poller_plain_http_counterexample :
  link_from_session 30 (exhausted_session plain_http_markup)
  = Some "http://drive.google.com/file/1"
  /\ startswith "http://drive.google.com/file/1" video_downloads_prefix
     = false
  /\ startswith "http://drive.google.com/file/1" drive_prefix = false.
Proof. repeat split; reflexivity. Qed.

(** ** Episode Link Filter *)

Lemma collect_rule `{Collaborators} rule base_url links out :
  collect rule base_url links = Return out ->
  Forall (fun l => rule (episode_name l) = true) out.
Proof.
  revert out. induction links as [|link links IH]; intros out; cbn [collect].
  - intros [= <-]. constructor.
  - destruct (truthy (get_href link) && rule (get_text_strip link)) eqn:E;
      [|apply IH].
    destruct (urljoin base_url (value (get_href link))) as [full_url|e];
      [|discriminate].
    cbn [bind_outcome].
    destruct (collect rule base_url links) as [rest|e]; [|discriminate].
    intros [= <-]. constructor; [|now apply IH].
    apply andb_prop in E as [_ E]. exact E.
Qed.

(** A loop over anchors one of which passes the rule does not return the
    empty list. *)
Lemma collect_In `{Collaborators} rule base_url links link out :
  In link links ->
  truthy (get_href link) = true ->
  rule (get_text_strip link) = true ->
  collect rule base_url links = Return out ->
  exists l ls, out = l :: ls.
Proof.
  intros Hin Hhref Hrule. revert out.
  induction links as [|a links IH]; intros out; cbn [collect];
    [contradiction|].
  destruct (truthy (get_href a) && rule (get_text_strip a)) eqn:E.
  - destruct (urljoin base_url (value (get_href a))) as [full_url|e];
      [|discriminate].
    cbn [bind_outcome].
    destruct (collect rule base_url links) as [rest|e]; [|discriminate].
    intros [= <-]. eauto.
  - destruct Hin as [->|Hin]; [|auto].
    rewrite Hhref, Hrule in E. discriminate.
Qed.

(** A loop raises only what [urljoin] raised on the href of an anchor that
    passes the rule. *)
Lemma collect_raises `{Collaborators} rule base_url links e :
  collect rule base_url links = Raise e ->
  exists link,
    In link links /\ passes rule link = true
    /\ urljoin base_url (value (get_href link)) = Raise e.
Proof.
  induction links as [|a links IH]; cbn [collect]; [discriminate|].
  fold (passes rule a).
  destruct (passes rule a) eqn:E.
  - destruct (urljoin base_url (value (get_href a))) as [full_url|e0] eqn:Eu.
    + cbn [bind_outcome].
      destruct (collect rule base_url links) as [rest|e1]; [discriminate|].
      intros [= <-]. destruct (IH eq_refl) as (link & Hin & Hp & Hu).
      exists link. auto using in_cons.
    + intros [= <-]. exists a. auto using in_eq.
  - intros Hr. destruct (IH Hr) as (link & Hin & Hp & Hu).
    exists link. auto using in_cons.
Qed.

Lemma primary_rule_no_season_no_zip text :
  primary_rule text = true ->
  contains "Season" text = false /\ contains "Zip" text = false.
Proof.
  unfold primary_rule. intros H.
  apply andb_prop in H as [H Hzip]. apply andb_prop in H as [_ Hseason].
  apply negb_true_iff in Hzip, Hseason. auto.
Qed.

(** C7, as the code has it: no link of the first loop's output has a text
    containing "Season" or "Zip"; a non-empty output of the first loop is
    what the filter returns; and the listing with the anchors "Episode 1",
    "Episode 2" and "Season Zip", the first two with a non-empty href that
    [urljoin] resolves, yields exactly the first two, in page order,
    already in the first loop. *)
Theorem primary_rule_excludes_season_zip `{Collaborators} :
  (forall base_url links out,
      collect primary_rule base_url links = Return out ->
      Forall no_season_no_zip out)
  /\ (forall html_content base_url soup l ls,
         BeautifulSoup html_content = Return soup ->
         collect primary_rule base_url (find_all_a_href soup)
         = Return (l :: ls) ->
         extract_episode_links html_content base_url = Return (l :: ls))
  /\ (forall html_content base_url c1 h1 c2 h2 h3 u1 u2,
         BeautifulSoup html_content
         = Return (three_anchor_listing (String c1 h1) (String c2 h2) h3) ->
         urljoin base_url (String c1 h1) = Return u1 ->
         urljoin base_url (String c2 h2) = Return u2 ->
         let two := [ {| episode_name := "Episode 1"; episode_url := u1 |};
                      {| episode_name := "Episode 2"; episode_url := u2 |} ]
         in
         collect primary_rule base_url
           (find_all_a_href
              (three_anchor_listing (String c1 h1) (String c2 h2) h3))
         = Return two
         /\ extract_episode_links html_content base_url = Return two).
Proof.
  split; [|split].
  - intros base_url links out Hout.
    eapply Forall_impl; [|eapply collect_rule, Hout].
    intros l. apply primary_rule_no_season_no_zip.
  - intros html_content base_url soup l ls Hsoup Hcollect.
    unfold extract_episode_links. rewrite Hsoup. cbn [bind_outcome].
    now rewrite Hcollect.
  - intros html_content base_url c1 h1 c2 h2 h3 u1 u2 Hsoup Hu1 Hu2 two.
    assert (Hfirst : collect primary_rule base_url
                       (find_all_a_href
                          (three_anchor_listing (String c1 h1) (String c2 h2)
                             h3)) = Return two).
    { destruct h3 as [[|c3 h3]|]; cbn; rewrite Hu1, Hu2; reflexivity. }
    split; [exact Hfirst|].
    unfold extract_episode_links. rewrite Hsoup. cbn [bind_outcome].
    now rewrite Hfirst.
Qed.

Lemma primary_rule_excludes_season_zip_witness :
  let two := [ {| episode_name := "Episode 1";
                  episode_url := "https://site.example/e1" |};
               {| episode_name := "Episode 2";
                  episode_url := "https://site.example/e2" |} ] in
  @collect (stub demo) primary_rule "https://site.example/show"
    (find_all_a_href
       (three_anchor_listing "https://site.example/e1"
          "https://site.example/e2" (Some "https://site.example/season.zip")))
  = Return two
  /\ @extract_episode_links (stub demo) "listing markup"
       "https://site.example/show" = Return two.
Proof.
  exact (proj2 (proj2 (@primary_rule_excludes_season_zip (stub demo)))
           "listing markup" "https://site.example/show"
           "h"%char "ttps://site.example/e1" "h"%char "ttps://site.example/e2"
           (Some "https://site.example/season.zip")
           "https://site.example/e1" "https://site.example/e2"
           eq_refl eq_refl eq_refl).
Defined.

(** C7 as stated fails on its scenario: when the anchor "Episode 1" has an
    empty href, or none, the listing of the three anchors yields one
    link. *)
Lemma three_anchors_counterexample :
  @extract_episode_links (stub edge) "empty href markup"
    "https://site.example/show"
  = Return [ {| episode_name := "Episode 2";
                episode_url := "https://site.example/e2" |} ]
  /\ @extract_episode_links (stub edge) "no href markup"
       "https://site.example/show"
     = Return [ {| episode_name := "Episode 2";
                   episode_url := "https://site.example/e2" |} ].
Proof. split; reflexivity. Qed.

(** C2, as the code has it: when the first loop yields nothing and some
    anchor with a non-empty href has a text that matches the pattern
    "episode", optional whitespace, digits up to case, and whose lowercased
    text contains neither "zip" nor "season", the filter does not return
    an empty sequence: the second loop yields a non-empty sequence, which
    the filter returns, unless [urljoin] rejects the href of an anchor the
    second loop accepts, and then the filter raises that exception. *)
Theorem fallback_rule_nonempty `{Collaborators}
  (html_content base_url : string) (soup link : node) :
  BeautifulSoup html_content = Return soup ->
  collect primary_rule base_url (find_all_a_href soup) = Return [] ->
  In link (find_all_a_href soup) ->
  truthy (get_href link) = true ->
  episode_pattern (get_text_strip link) = true ->
  contains "zip" (lower (get_text_strip link)) = false ->
  contains "season" (lower (get_text_strip link)) = false ->
  (exists l ls,
      collect fallback_rule base_url (find_all_a_href soup)
      = Return (l :: ls)
      /\ extract_episode_links html_content base_url = Return (l :: ls))
  \/ (exists e rejected,
         In rejected (find_all_a_href soup)
         /\ passes fallback_rule rejected = true
         /\ urljoin base_url (value (get_href rejected)) = Raise e
         /\ extract_episode_links html_content base_url = Raise e).
Proof.
  intros Hsoup Hprimary Hin Hhref Hpattern Hzip Hseason.
  assert (Hrule : fallback_rule (get_text_strip link) = true)
    by (unfold fallback_rule; now rewrite Hpattern, Hzip, Hseason).
  assert (Hfilter : extract_episode_links html_content base_url
                    = collect fallback_rule base_url (find_all_a_href soup)).
  { unfold extract_episode_links. rewrite Hsoup. cbn [bind_outcome].
    now rewrite Hprimary. }
  destruct (collect fallback_rule base_url (find_all_a_href soup))
    as [out|e] eqn:E.
  - left.
    destruct (collect_In fallback_rule base_url _ link out Hin Hhref Hrule E)
      as (l & ls & ->).
    eauto.
  - right. apply collect_raises in E as (rejected & Hr & Hp & Hu).
    exists e, rejected. auto.
Qed.

Lemma fallback_rule_nonempty_witness :
  (exists l ls,
      @collect (stub demo) fallback_rule "https://site.example"
        (find_all_a_href uppercase_listing) = Return (l :: ls)
      /\ @extract_episode_links (stub demo) "uppercase markup"
           "https://site.example" = Return (l :: ls))
  \/ (exists e rejected,
         In rejected (find_all_a_href uppercase_listing)
         /\ passes fallback_rule rejected = true
         /\ @urljoin (stub demo) "https://site.example"
              (value (get_href rejected)) = Raise e
         /\ @extract_episode_links (stub demo) "uppercase markup"
              "https://site.example" = Raise e).
Proof.
  apply (@fallback_rule_nonempty (stub demo) "uppercase markup"
           "https://site.example" uppercase_listing
           (anchor (Some "/e3") [] "EPISODE 3"));
    first [reflexivity | now left].
Defined.

(** C2 as stated fails: the only anchor of [zip_listing] reads
    "episode 1 zip"; the first loop yields nothing, the text matches the
    pattern, and the second loop drops it for its "zip".  It fails too on
    an anchor "episode 1" whose href [urljoin] rejects: the filter raises
    and yields nothing. *)
Lemma fallback_rule_counterexample :
  (@collect (stub demo) primary_rule "https://site.example/bare"
     (find_all_a_href zip_listing) = Return []
   /\ existsb (fun a => episode_pattern (get_text_strip a))
              (find_all_a_href zip_listing) = true
   /\ @extract_episode_links (stub demo) "zip markup"
        "https://site.example/bare" = Return [])
  /\ (@collect (stub edge) primary_rule "https://site.example/show"
        (find_all_a_href bracket_listing) = Return []
      /\ existsb (fun a => episode_pattern (get_text_strip a))
                 (find_all_a_href bracket_listing) = true
      /\ @extract_episode_links (stub edge) "bracket markup"
           "https://site.example/show" = Raise "Invalid IPv6 URL").
Proof. repeat split; reflexivity. Qed.

(** ** Intermediate Link Resolver *)

Lemma contains_separator x t :
  contains " " (x ++ String " " t)%string = true.
Proof.
  induction x as [|c x IH]; [reflexivity|].
  apply contains_cons. exact IH.
Qed.

Lemma join_without_space cls w :
  join " " cls = w -> contains " " w = false -> cls = [] \/ cls = [w].
Proof.
  destruct cls as [|x [|y rest]]; intros Hjoin Hw; auto.
  - right. simpl in Hjoin. now subst.
  - exfalso. rewrite <- Hjoin in Hw.
    cbn [join] in Hw. change (" " ++ ?t)%string with (String " " t) in Hw.
    now rewrite contains_separator in Hw.
Qed.

Lemma mem_In x xs : mem x xs = true -> In x xs.
Proof.
  unfold mem. rewrite existsb_exists.
  intros (y & Hin & E). apply String.eqb_eq in E. now subst.
Qed.

Lemma class_matches_button n :
  class_matches ["btn"; "btn-danger"] n = true ->
  carries_class "btn" n \/ carries_class "btn-danger" n.
Proof.
  destruct n as [t|t|name h cls cs]; cbn [class_matches carries_class];
    [discriminate|discriminate|].
  destruct cls as [|c0 cls0] eqn:Ecls; [discriminate|]. rewrite <- Ecls.
  intros H. apply orb_prop in H as [H|H].
  - apply existsb_exists in H as (c & Hin & Hc).
    apply mem_In in Hc. simpl in Hc.
    destruct Hc as [<-|[<-|[]]]; auto.
  - apply mem_In in H. simpl in H.
    destruct H as [H|[H|[]]]; symmetry in H;
      apply join_without_space in H; try reflexivity;
      destruct H as [H|H]; rewrite H in Ecls; try discriminate;
      rewrite H; simpl; auto.
Qed.

(** C3, as the code has it: the first search looks only at the first
    anchor that carries the class "btn" or the class "btn-danger"; it
    returns that anchor's href exactly when the anchor's text contains
    "Instant DL" with that very case, and then the second and the third
    search are not evaluated. *)
Theorem heuristic_1_first_button (soup : node) :
  (forall r,
      heuristic_1 soup = Some r ->
      exists link,
        find_a_class ["btn"; "btn-danger"] soup = Some link
        /\ is_tag "a" link = true
        /\ (carries_class "btn" link \/ carries_class "btn-danger" link)
        /\ contains "Instant DL" (get_text link) = true
        /\ r = get_href link
        /\ find_instant_dl soup = ([ByClass], r))
  /\ (forall link,
         find_a_class ["btn"; "btn-danger"] soup = Some link ->
         contains "Instant DL" (get_text link) = true ->
         heuristic_1 soup = Some (get_href link)
         /\ find_instant_dl soup = ([ByClass], get_href link)).
Proof.
  split.
  - intros r H. unfold find_instant_dl. rewrite H.
    unfold heuristic_1 in H.
    destruct (find_a_class ["btn"; "btn-danger"] soup) as [link|] eqn:Efind;
      [|discriminate].
    destruct (contains "Instant DL" (get_text link)) eqn:Etext;
      [|discriminate].
    injection H as <-.
    exists link. unfold find_a_class in Efind.
    apply find_some in Efind as [_ Hlink].
    apply andb_prop in Hlink as [Ha Hclass].
    auto 10 using class_matches_button.
  - intros link Efind Etext.
    unfold find_instant_dl, heuristic_1. rewrite Efind, Etext. auto.
Qed.

Lemma heuristic_1_first_button_witness :
  heuristic_1 button_page = Some (Some "https://inter.example/1")
  /\ find_instant_dl button_page
     = ([ByClass], Some "https://inter.example/1").
Proof.
  apply (proj2 (heuristic_1_first_button button_page)
           (anchor (Some "https://inter.example/1") ["btn"; "btn-danger"]
                   "Instant DL")); reflexivity.
Defined.

(** C3 as stated fails three ways: an anchor with the class "btn" alone is
    returned by the first search; an anchor with both classes whose text is
    "instant dl" is not, and the second search runs; nor is a matching
    anchor that comes after another anchor of the class. *)
Lemma heuristic_1_counterexample :
  (heuristic_1 single_class_page = Some (Some "/dl")
   /\ ~ carries_class "btn-danger" (anchor (Some "/dl") ["btn"] "Instant DL"))
  /\ (contains (lower "Instant DL")
        (lower (get_text (anchor (Some "/dl") ["btn"; "btn-danger"]
                                 "instant dl"))) = true
      /\ heuristic_1 lowercase_button_page = None
      /\ find_instant_dl lowercase_button_page
         = ([ByClass; ByString], Some "/dl"))
  /\ (contains "Instant DL"
        (get_text (anchor (Some "/dl") ["btn"; "btn-danger"]
                          "Get Instant DL now")) = true
      /\ heuristic_1 home_then_button_page = None
      /\ find_instant_dl home_then_button_page
         = ([ByClass; ByString], Some "/dl")).
Proof.
  repeat split; try reflexivity.
  simpl. intros [H|[]]. discriminate.
Qed.

(** ** Pipeline Orchestrator *)

Lemma truthy_value o : truthy o = true -> value o <> EmptyString.
Proof. destruct o as [[|c s]|]; simpl; congruence. Qed.

Lemma produced_status_in_range r : produced r -> status_in_range r.
Proof. unfold status_in_range. destruct 1; cbn; auto. Qed.

Lemma produced_success_has_link r : produced r -> success_has_link r.
Proof.
  unfold success_has_link. destruct 1; cbn; try discriminate.
  intros _. eauto.
Qed.

Lemma produced_link_iff_success r : produced r -> link_iff_success r.
Proof.
  unfold link_iff_success. destruct 1; cbn; split; congruence.
Qed.

Lemma fetch_page_returns `{Collaborators} url w :
  exists html_content w',
    fetch_page url w = (Return html_content, w')
    /\ results_file w' = results_file w.
Proof.
  unfold fetch_page, bind, call, ret.
  destruct (session_get url (outside w)) as [[[status text]|e] e'].
  - destruct (status =? 200); eauto.
  - eauto.
Qed.

(** One iteration never raises: it appends exactly one result of one of
    the three shapes and leaves the log file alone. *)
Lemma process_episode_appends `{Collaborators} episode results w :
  exists r w',
    process_episode episode results w = (Return (results ++ [r]), w')
    /\ produced r
    /\ results_file w' = results_file w.
Proof.
  unfold process_episode, try_except, extract_instant_dl_link, bind.
  destruct (fetch_page_returns (episode_url episode) w)
    as (html_content & w1 & -> & Hfile1).
  destruct (truthy html_content); cbn [negb];
    [|unfold ret; cbn [truthy negb]; eauto 6 using produced].
  unfold lift.
  destruct (BeautifulSoup (value html_content)) as [soup|e];
    [|unfold ret; eauto 6 using produced].
  unfold ret at 1.
  destruct (truthy (snd (find_instant_dl soup))) eqn:Einstant; cbn [negb];
    [|unfold ret; eauto 6 using produced].
  unfold extract_google_drive_link_with_browser, bind, call, ret.
  destruct (async_playwright (value (snd (find_instant_dl soup))) (outside w1))
    as [s e1].
  destruct (truthy (link_from_session 30 s)) eqn:Efinal; cbn [negb].
  - cbn [outside results_file].
    destruct (datetime_now_isoformat e1) as [timestamp e2].
    do 2 eexists. split; [reflexivity|]. split; [|exact Hfile1].
    constructor. now apply truthy_value.
  - do 2 eexists. split; [reflexivity|]. split; [|exact Hfile1].
    constructor.
Qed.

(** The loop returns: one produced result per episode, in order, after
    the results it started with. *)
Lemma process_episodes_appends `{Collaborators} episode_links results w :
  exists rs w',
    process_episodes episode_links results w = (Return (results ++ rs), w')
    /\ Forall produced rs
    /\ List.length rs = List.length episode_links
    /\ results_file w' = results_file w.
Proof.
  revert results w.
  induction episode_links as [|episode rest IH]; intros results w.
  - exists [], w. rewrite app_nil_r. repeat split. constructor.
  - cbn [process_episodes]. unfold bind.
    destruct (process_episode_appends episode results w)
      as (r & w1 & -> & Hr & Hfile1).
    destruct (IH (results ++ [r]) w1) as (rs & w2 & -> & Hrs & Hlen & Hfile2).
    exists (r :: rs), w2. rewrite <- app_assoc. cbn [app List.length].
    repeat split; auto; congruence.
Qed.

(** ** Result Store *)

Lemma status_in_range_has_status r : status_in_range r -> has_status r.
Proof. unfold has_status. intros [H|[H|H]]; congruence. Qed.

Lemma count_status_tally status results :
  Forall has_status results ->
  count_status status results = Return (tally status results).
Proof.
  unfold tally.
  induction 1 as [|r results Hr _ IH]; cbn [count_status filter];
    [reflexivity|].
  rewrite IH. cbn [bind_outcome].
  destruct (dict_get "status" r) as [v|] eqn:E.
  - destruct (String.eqb v status); reflexivity.
  - now elim Hr.
Qed.

Lemma tally_total results :
  Forall status_in_range results ->
  tally "success" results + tally "failed" results + tally "partial" results
  = List.length results.
Proof.
  unfold tally.
  induction 1 as [|r results Hr _ IH]; cbn [filter List.length];
    [reflexivity|].
  destruct Hr as [Hr|[Hr|Hr]]; rewrite Hr; simpl; lia.
Qed.

Lemma make_data_tally url processed_at results :
  Forall has_status results ->
  make_data url processed_at results
  = Return (record_of url processed_at results).
Proof.
  intros Hresults. unfold make_data.
  now rewrite !count_status_tally by assumption.
Qed.

(** [save_results] on results that have a status returns and leaves in
    the file the records it found there, none when the file is missing,
    empty or rejected with a [JSONDecodeError], followed by the record of
    this run; it raises, with the file untouched, when the load raises or
    gives JSON that is not a list. *)
Lemma save_results_writes `{Collaborators} url results w :
  Forall has_status results ->
  exists processed_at e,
    datetime_now_isoformat (outside w) = (processed_at, e)
    /\ let w1 := {| outside := e; results_file := results_file w |} in
       match fst (load_existing w1) with
       | Return (JArray items) =>
           save_results url results w
           = (Return tt,
              {| outside := e;
                 results_file :=
                   Holds (json_dumps
                           (JArray (items
                                    ++ [run_record_json
                                          (record_of url processed_at
                                             results)]))) |})
       | _ =>
           exists err, save_results url results w = (Raise err, w1)
       end.
Proof.
  intros Hresults.
  unfold save_results, bind, call, lift.
  destruct (datetime_now_isoformat (outside w)) as [processed_at e].
  exists processed_at, e. split; [reflexivity|]. cbn zeta.
  rewrite make_data_tally by assumption.
  set (w1 := {| outside := e; results_file := results_file w |}).
  assert (Hload : snd (load_existing w1) = w1).
  { unfold load_existing.
    destruct (results_file w1) as [|c|err]; try reflexivity.
    destruct (is_empty c); [reflexivity|].
    destruct (json_loads c); reflexivity. }
  destruct (load_existing w1) as [[existing|err] w2]; cbn [fst snd] in *;
    subst w2.
  - destruct existing; eauto.
  - eauto.
Qed.

(** Every run goes one of three ways: it stops before the loop and leaves
    the file alone; or it runs the loop and then either writes the log,
    extended by the record of its results, or raises out of
    [save_results] with the file untouched. *)
Lemma process_main_url_cases `{Collaborators} main_url w :
  exists o w',
    process_main_url main_url w = (o, w')
    /\ ((results_file w' = results_file w
         /\ forall rs, o <> Return (result_list rs))
        \/ exists rs items processed_at,
             Forall produced rs
             /\ o = Return (result_list rs)
             /\ results_file w'
                = Holds (json_dumps
                          (JArray (items
                                   ++ [run_record_json
                                         (record_of main_url processed_at
                                            rs)])))).
Proof.
  unfold process_main_url, bind.
  destruct (fetch_page_returns main_url w) as (html_content & w1 & -> & Hf1).
  destruct (truthy html_content); cbn [negb];
    [|unfold ret; do 2 eexists; split; [reflexivity|]; left; split;
      [assumption | discriminate]].
  unfold lift.
  destruct (extract_episode_links (value html_content) main_url)
    as [[|episode rest]|e];
    try (unfold ret; do 2 eexists; split; [reflexivity|]; left; split;
         [assumption | discriminate]).
  destruct (process_episodes_appends (episode :: rest) [] w1)
    as (rs & w2 & -> & Hrs & _ & Hf2). cbn [app].
  assert (Hrange : Forall has_status rs).
  { eapply Forall_impl; [|exact Hrs].
    intros r Hr. apply status_in_range_has_status, produced_status_in_range.
    exact Hr. }
  destruct (save_results_writes main_url rs w2 Hrange)
    as (processed_at & e & _ & Hsave). cbn zeta in Hsave.
  destruct (fst (load_existing
                   {| outside := e; results_file := results_file w2 |}))
    as [[| | | |items|]|err];
    try (lazymatch type of Hsave with
         | ex _ =>
             destruct Hsave as [err' Hraise]; rewrite Hraise; do 2 eexists;
             split; [reflexivity|]; left; split;
             [cbn; congruence | discriminate]
         end).
  rewrite Hsave. unfold ret. do 2 eexists. split; [reflexivity|].
  right. exists rs, items, processed_at. auto.
Qed.

(** C4: a run either leaves the log file as it was and returns no result
    list, or returns its results and leaves in the file the records that
    were there followed by the record [save_results] built from those
    results; in that record the three counts are the tallies of the
    statuses of its own episode results and add up to its total. *)
Theorem persisted_counts_tally `{Collaborators} (main_url : string)
  (w w' : world) (o : outcome run_output) :
  process_main_url main_url w = (o, w') ->
  (results_file w' = results_file w
   /\ forall rs, o <> Return (result_list rs))
  \/ exists rs items processed_at data,
       o = Return (result_list rs)
       /\ make_data main_url processed_at rs = Return data
       /\ results_file w'
          = Holds (json_dumps (JArray (items ++ [run_record_json data])))
       /\ episodes data = rs
       /\ successful data + failed data + partial data
          = total_episodes data
       /\ successful data = tally "success" (episodes data)
       /\ failed data = tally "failed" (episodes data)
       /\ partial data = tally "partial" (episodes data).
Proof.
  intros Hrun.
  destruct (process_main_url_cases main_url w)
    as (o0 & w0 & Hrun0 & Hcases).
  rewrite Hrun in Hrun0. injection Hrun0 as <- <-.
  destruct Hcases as [Hsame|(rs & items & processed_at & Hrs & -> & Hfile)];
    [left; exact Hsame|].
  assert (Hrange : Forall status_in_range rs)
    by (eapply Forall_impl; [apply produced_status_in_range | exact Hrs]).
  right. exists rs, items, processed_at, (record_of main_url processed_at rs).
  repeat split; auto.
  - apply make_data_tally.
    eapply Forall_impl; [apply status_in_range_has_status | exact Hrange].
  - cbn [record_of successful failed partial total_episodes episodes].
    now apply tally_total.
Qed.

Lemma persisted_counts_tally_witness :
  (results_file (snd demo_run) = results_file fresh_world
   /\ forall rs, fst demo_run <> Return (result_list rs))
  \/ exists rs items processed_at data,
       fst demo_run = Return (result_list rs)
       /\ make_data "https://site.example/show" processed_at rs = Return data
       /\ results_file (snd demo_run)
          = Holds (dumps (JArray (items ++ [run_record_json data])))
       /\ episodes data = rs
       /\ successful data + failed data + partial data
          = total_episodes data
       /\ successful data = tally "success" (episodes data)
       /\ failed data = tally "failed" (episodes data)
       /\ partial data = tally "partial" (episodes data).
Proof.
  apply (@persisted_counts_tally (stub demo) "https://site.example/show"
           fresh_world (snd demo_run) (fst demo_run)).
  reflexivity.
Defined.

Lemma process_main_url_produced `{Collaborators} main_url w rs w' :
  process_main_url main_url w = (Return (result_list rs), w') ->
  Forall produced rs.
Proof.
  intros Hrun.
  destruct (process_main_url_cases main_url w) as (o & w0 & Hrun0 & Hcases).
  rewrite Hrun in Hrun0. injection Hrun0 as <- <-.
  destruct Hcases as [[_ Hno]|(rs0 & _ & _ & Hrs & [= ->] & _)].
  - now elim (Hno rs).
  - exact Hrs.
Qed.

(** C5: the loop over the episodes always returns, and every result it
    appends with the status "success" has a final_download_link field
    whose value is not empty; so has every result a run returns. *)
Theorem success_carries_final_link `{Collaborators} :
  (forall episode_links w,
      exists rs w',
        process_episodes episode_links [] w = (Return rs, w')
        /\ Forall success_has_link rs)
  /\ (forall main_url w rs w',
         process_main_url main_url w = (Return (result_list rs), w') ->
         Forall success_has_link rs).
Proof.
  split.
  - intros episode_links w.
    destruct (process_episodes_appends episode_links [] w)
      as (rs & w' & Hrun & Hrs & _).
    exists rs, w'. split; [exact Hrun|].
    eapply Forall_impl; [apply produced_success_has_link | exact Hrs].
  - intros main_url w rs w' Hrun.
    eapply Forall_impl; [apply produced_success_has_link|].
    eapply process_main_url_produced, Hrun.
Qed.

Lemma success_carries_final_link_witness :
  Forall success_has_link
    [success_result "Episode 1" "https://site.example/e1"
       "https://inter.example/1" "https://drive.google.com/file/2" "T3";
     partial_result "Episode 2" "https://site.example/e2"
       "https://inter.example/2"].
Proof.
  exact (proj2 (@success_carries_final_link (stub demo))
           "https://site.example/show" fresh_world _ (snd demo_run)
           eq_refl).
Defined.

(** C10: the loop over the episodes always returns, and every result it
    appends has the status "success", "partial" or "failed" and carries a
    final_download_link field exactly when its status is "success"; so
    has every result a run returns. *)
Theorem status_and_link_presence `{Collaborators} :
  (forall episode_links w,
      exists rs w',
        process_episodes episode_links [] w = (Return rs, w')
        /\ Forall (fun r => status_in_range r /\ link_iff_success r) rs)
  /\ (forall main_url w rs w',
         process_main_url main_url w = (Return (result_list rs), w') ->
         Forall (fun r => status_in_range r /\ link_iff_success r) rs).
Proof.
  assert (Hboth : forall r, produced r ->
                            status_in_range r /\ link_iff_success r)
    by auto using produced_status_in_range, produced_link_iff_success.
  split.
  - intros episode_links w.
    destruct (process_episodes_appends episode_links [] w)
      as (rs & w' & Hrun & Hrs & _).
    exists rs, w'. split; [exact Hrun|].
    eapply Forall_impl; [apply Hboth | exact Hrs].
  - intros main_url w rs w' Hrun.
    eapply Forall_impl; [apply Hboth|].
    eapply process_main_url_produced, Hrun.
Qed.

Lemma status_and_link_presence_witness :
  Forall (fun r => status_in_range r /\ link_iff_success r)
    [success_result "Episode 1" "https://site.example/e1"
       "https://inter.example/1" "https://drive.google.com/file/2" "T3";
     partial_result "Episode 2" "https://site.example/e2"
       "https://inter.example/2"].
Proof.
  exact (proj2 (@status_and_link_presence (stub demo))
           "https://site.example/show" fresh_world _ (snd demo_run)
           eq_refl).
Defined.

(** C6: when the fetch of the listing raises, or answers with a status
    other than 200, or the filter finds no episode link in the page, the
    run returns an error object and the log file is as it was. *)
Theorem abort_leaves_log_unchanged `{Collaborators} (main_url : string)
  (w : world) :
  (exists err e, session_get main_url (outside w) = (Raise err, e))
  \/ (exists status text e,
         session_get main_url (outside w) = (Return (status, text), e)
         /\ status <> 200)
  \/ (exists text e,
         session_get main_url (outside w) = (Return (200, text), e)
         /\ extract_episode_links text main_url = Return []) ->
  exists error w',
    process_main_url main_url w = (Return (error_object error), w')
    /\ (error = "Failed to fetch main page"
        \/ error = "No episode links found")
    /\ results_file w' = results_file w.
Proof.
  unfold process_main_url, fetch_page, bind, call, ret, lift.
  intros [(err & e & ->)|[(status & text & e & -> & Hstatus)
                         |(text & e & -> & Hlinks)]].
  - cbn. eauto 6.
  - apply Nat.eqb_neq in Hstatus. rewrite Hstatus. cbn. eauto 6.
  - cbn [Nat.eqb truthy value negb outside results_file].
    destruct text as [|c text]; cbn [is_empty negb]; [eauto 6|].
    rewrite Hlinks. eauto 6.
Qed.

Lemma abort_leaves_log_unchanged_witness :
  exists error w',
    @process_main_url (stub demo) "https://site.example/gone" fresh_world
    = (Return (error_object error), w')
    /\ (error = "Failed to fetch main page"
        \/ error = "No episode links found")
    /\ results_file w' = results_file fresh_world.
Proof.
  apply (@abort_leaves_log_unchanged (stub demo) "https://site.example/gone"
           fresh_world).
  right. left. exists 404, "not found", 1.
  split; [reflexivity | discriminate].
Defined.

(** C8, as the code has it: when the log file is missing, or holds a text
    that is empty or that the decoder rejects with a [JSONDecodeError],
    saving results that all have a status returns without raising and
    leaves a log of exactly one record, the record built for this run. *)
Theorem unreadable_log_starts_empty `{Collaborators} (main_url : string)
  (results : list dict) (w : world) :
  Forall has_status results ->
  results_file w = Missing
  \/ (exists text,
         results_file w = Holds text
         /\ (text = EmptyString \/ json_loads text = JSONDecodeError)) ->
  exists processed_at e data,
    datetime_now_isoformat (outside w) = (processed_at, e)
    /\ make_data main_url processed_at results = Return data
    /\ save_results main_url results w
       = (Return tt,
          {| outside := e;
             results_file :=
               Holds (json_dumps (JArray [run_record_json data])) |}).
Proof.
  intros Hresults Hfile.
  destruct (save_results_writes main_url results w Hresults)
    as (processed_at & e & Hnow & Hsave).
  exists processed_at, e, (record_of main_url processed_at results).
  split; [exact Hnow|]. split; [now apply make_data_tally|].
  cbn zeta in Hsave. unfold load_existing in Hsave.
  cbn [results_file] in Hsave.
  destruct Hfile as [Hnone|(text & Hsome & [->|Hloads])].
  - rewrite Hnone in Hsave. exact Hsave.
  - rewrite Hsome in Hsave. exact Hsave.
  - rewrite Hsome in Hsave.
    destruct (is_empty text); [exact Hsave|].
    rewrite Hloads in Hsave. exact Hsave.
Qed.

Lemma unreadable_log_starts_empty_witness :
  exists processed_at e data,
    @datetime_now_isoformat (stub demo) (outside corrupt_world)
    = (processed_at, e)
    /\ make_data "https://site.example/show" processed_at
         [failed_result "Episode 1" "Instant DL link not found"]
       = Return data
    /\ @save_results (stub demo) "https://site.example/show"
         [failed_result "Episode 1" "Instant DL link not found"]
         corrupt_world
       = (Return tt,
          @Build_world (stub demo) e
            (Holds (dumps (JArray [run_record_json data])))).
Proof.
  apply (@unreadable_log_starts_empty (stub demo)
           "https://site.example/show"
           [failed_result "Episode 1" "Instant DL link not found"]
           corrupt_world).
  - repeat constructor. discriminate.
  - right. exists "{not json". split; [reflexivity|]. right. reflexivity.
Defined.

(** C8 as stated fails: a log file whose bytes do not decode as text holds
    no JSON, yet the exception of the read is none of the two the handler
    names; it leaves [save_results] and the file is left as it was. *)
Lemma undecodable_log_counterexample :
  @save_results (stub demo) "https://site.example/show"
    [failed_result "Episode 1" "Instant DL link not found"]
    undecodable_world
  = (Raise invalid_start_byte,
     @Build_world (stub demo) 1 (Undecodable invalid_start_byte)).
Proof. reflexivity. Qed.

(** ** File download endpoint *)

Lemma contains_slash_cons c p :
  contains "/" (String c p) = Ascii.eqb c "/" || contains "/" p.
Proof.
  cbn [contains]. unfold startswith. cbn [strip_prefix].
  rewrite (Ascii.eqb_sym "/" c). now destruct (Ascii.eqb c "/").
Qed.






(** * Further properties of the code *)

(** ** Substrings *)

Lemma append_assoc (a b c : string) :
  ((a ++ b) ++ c)%string = (a ++ b ++ c)%string.
Proof. induction a as [|x a IH]; simpl; congruence. Qed.

Lemma startswith_contains needle s :
  startswith s needle = true -> contains needle s = true.
Proof. intros H. destruct s; cbn [contains]; now rewrite H. Qed.

(** [needle in s] holds exactly when [s] splits around [needle]. *)
Lemma contains_iff needle s :
  contains needle s = true
  <-> exists a b, s = (a ++ needle ++ b)%string.
Proof.
  split.
  - induction s as [|c s IH]; cbn [contains]; intros H;
      apply orb_prop in H as [H|H]; try discriminate.
    + apply startswith_app in H as [r ->]. now exists EmptyString, r.
    + apply startswith_app in H as [r ->]. now exists EmptyString, r.
    + destruct (IH H) as (a & b & ->). now exists (String c a), b.
  - intros (a & b & ->). induction a as [|c a IH].
    + apply startswith_contains, startswith_app. now exists b.
    + apply contains_cons. exact IH.
Qed.

Lemma lower_app a b : lower (a ++ b) = (lower a ++ lower b)%string.
Proof. induction a as [|c a IH]; simpl; congruence. Qed.

Lemma contains_lower needle s :
  contains needle s = true -> contains (lower needle) (lower s) = true.
Proof.
  rewrite !contains_iff. intros (a & b & ->).
  exists (lower a), (lower b). now rewrite !lower_app.
Qed.

(** ** Episode Link Filter, both loops *)

Lemma collect_map_filter `{Collaborators} rule base_url links :
  collect rule base_url links
  = map_outcome (link_of base_url) (filter (passes rule) links).
Proof.
  induction links as [|link links IH]; [reflexivity|].
  cbn [collect filter]. fold (passes rule link).
  destruct (passes rule link); [|exact IH].
  cbn [map_outcome]. unfold link_of at 1.
  destruct (urljoin base_url (value (get_href link))) as [full_url|e];
    [|reflexivity].
  cbn [bind_outcome]. now rewrite IH.
Qed.

Lemma filter_nil_existsb {A : Type} (f : A -> bool) (l : list A) :
  existsb f l = false -> filter f l = [].
Proof.
  induction l as [|x l IH]; [reflexivity|]. cbn [existsb filter].
  destruct (f x); [discriminate|]. exact IH.
Qed.

Lemma filter_cons_existsb {A : Type} (f : A -> bool) (l : list A) :
  existsb f l = true -> exists x xs, filter f l = x :: xs.
Proof.
  induction l as [|x l IH]; [discriminate|]. cbn [existsb filter].
  destruct (f x); [eauto|]. exact IH.
Qed.

Lemma primary_rule_episode text :
  primary_rule text = true -> contains "Episode" text = true.
Proof.
  unfold primary_rule. intros H.
  apply andb_prop in H as [H _]. now apply andb_prop in H as [H _].
Qed.

Lemma fallback_rule_clean text :
  fallback_rule text = true ->
  contains "Season" text = false /\ contains "Zip" text = false
  /\ episode_pattern text = true.
Proof.
  unfold fallback_rule. intros H.
  apply andb_prop in H as [Hpat H]. apply andb_prop in H as [Hzip Hseason].
  apply negb_true_iff in Hzip, Hseason.
  repeat split; [| |exact Hpat].
  - destruct (contains "Season" text) eqn:E; [|reflexivity].
    apply contains_lower in E. cbn [lower] in E.
    change (contains "season" (lower text) = true) in E. congruence.
  - destruct (contains "Zip" text) eqn:E; [|reflexivity].
    apply contains_lower in E.
    change (contains "zip" (lower text) = true) in E. congruence.
Qed.

(** X1: whichever loop produced them, the names of the links the filter
    returns contain neither "Season" nor "Zip", and each contains
    "Episode" or matches the pattern of the second loop. *)
Theorem filter_names_are_episodes `{Collaborators}
  (html_content base_url : string) (links : list episode_link) :
  extract_episode_links html_content base_url = Return links ->
  Forall (fun l => contains "Season" (episode_name l) = false
                   /\ contains "Zip" (episode_name l) = false
                   /\ (contains "Episode" (episode_name l) = true
                       \/ episode_pattern (episode_name l) = true))
         links.
Proof.
  unfold extract_episode_links.
  destruct (BeautifulSoup html_content) as [soup|e]; [|discriminate].
  cbn [bind_outcome].
  destruct (collect primary_rule base_url (find_all_a_href soup))
    as [[|l ls]|e] eqn:E; cbn [bind_outcome]; [| |discriminate].
  - intros Hout. eapply Forall_impl; [|eapply collect_rule, Hout].
    intros l Hl. apply fallback_rule_clean in Hl as (? & ? & ?). auto.
  - intros [= <-]. eapply Forall_impl; [|eapply collect_rule, E].
    intros l' Hl. pose proof (primary_rule_no_season_no_zip _ Hl) as [? ?].
    auto using primary_rule_episode.
Qed.

Lemma filter_names_are_episodes_witness :
  Forall (fun l => contains "Season" (episode_name l) = false
                   /\ contains "Zip" (episode_name l) = false
                   /\ (contains "Episode" (episode_name l) = true
                       \/ episode_pattern (episode_name l) = true))
    [ {| episode_name := "EPISODE 3";
         episode_url := "https://site.example/e3" |} ].
Proof.
  apply (@filter_names_are_episodes (stub demo) "uppercase markup"
           "https://site.example"). reflexivity.
Defined.

(** X2: when the parser returns a tree, the filter goes through the
    anchors that pass one rule, in page order and with repetitions: the
    first rule as soon as one anchor passes it, the second rule otherwise.
    It returns their links, or raises what [urljoin] raises on the first
    of them whose href it rejects. *)
Theorem filter_is_one_rule_in_page_order `{Collaborators}
  (html_content base_url : string) (soup : node) :
  BeautifulSoup html_content = Return soup ->
  let anchors := find_all_a_href soup in
  let rule := if existsb (passes primary_rule) anchors
              then primary_rule else fallback_rule in
  extract_episode_links html_content base_url
  = map_outcome (link_of base_url) (filter (passes rule) anchors).
Proof.
  intros Hsoup anchors rule. subst rule.
  unfold extract_episode_links. rewrite Hsoup. cbn [bind_outcome].
  fold anchors. rewrite !collect_map_filter.
  destruct (existsb (passes primary_rule) anchors) eqn:E.
  - apply filter_cons_existsb in E as (x & xs & ->).
    cbn [map_outcome].
    destruct (link_of base_url x) as [y|e]; [|reflexivity].
    cbn [bind_outcome].
    destruct (map_outcome (link_of base_url) xs) as [ys|e]; reflexivity.
  - now rewrite (filter_nil_existsb _ _ E).
Qed.

Lemma filter_is_one_rule_in_page_order_witness :
  let anchors := find_all_a_href bracket_listing in
  let rule := if existsb (passes primary_rule) anchors
              then primary_rule else fallback_rule in
  @extract_episode_links (stub edge) "bracket markup"
    "https://site.example/show"
  = map_outcome (@link_of (stub edge) "https://site.example/show")
      (filter (passes rule) anchors).
Proof.
  apply (@filter_is_one_rule_in_page_order (stub edge) "bracket markup"
           "https://site.example/show"). reflexivity.
Defined.

(** ** Intermediate Link Resolver, the first and third search *)

Lemma find_all_a_href_In soup link :
  In link (find_all_a_href soup) ->
  In link (descendants soup) /\ is_tag "a" link = true
  /\ get_href link <> None.
Proof.
  unfold find_all_a_href. rewrite filter_In. intros [Hin H].
  apply andb_prop in H as [Ha Hhref]. repeat split; auto.
  unfold has_href in Hhref. now destruct (get_href link).
Qed.

(** X3: a link the resolver returns is the href of an anchor of the page,
    namely of the anchor that the search which ended the function found:
    in the first search an anchor whose text contains "Instant DL", in the
    third an anchor whose stripped text, lowercased, holds both "instant"
    and "dl". *)
Theorem resolver_link_is_an_anchor_href (soup : node)
  (tried : list heuristic) (href : string) :
  find_instant_dl soup = (tried, Some href) ->
  exists link,
    In link (descendants soup)
    /\ is_tag "a" link = true
    /\ get_href link = Some href
    /\ (tried = [ByClass] -> contains "Instant DL" (get_text link) = true)
    /\ (tried = [ByClass; ByString; ByText] ->
        instant_and_dl (get_text_strip link) = true).
Proof.
  unfold find_instant_dl.
  destruct (heuristic_1 soup) as [r1|] eqn:E1.
  - intros [= <- ->]. unfold heuristic_1 in E1.
    destruct (find_a_class ["btn"; "btn-danger"] soup) as [link|] eqn:Efind;
      [|discriminate].
    destruct (contains "Instant DL" (get_text link)) eqn:Etext;
      [|discriminate].
    injection E1 as E1. apply find_some in Efind as [Hin Hlink].
    apply andb_prop in Hlink as [Ha _].
    exists link. repeat split; auto. discriminate.
  - destruct (heuristic_2 soup) as [r2|] eqn:E2.
    + intros [= <- ->]. unfold heuristic_2 in E2.
      destruct (find_a_string_ignorecase "Instant DL" soup) as [link|]
        eqn:Efind; [|discriminate].
      injection E2 as E2. apply find_some in Efind as [Hin Hlink].
      apply andb_prop in Hlink as [Ha _].
      exists link. repeat split; auto; discriminate.
    + unfold heuristic_3.
      destruct (find _ (find_all_a_href soup)) as [link|] eqn:Efind;
        [|discriminate].
      intros [= <- Hhref]. apply find_some in Efind as [Hin Hlink].
      apply find_all_a_href_In in Hin as (Hin & Ha & _).
      exists link. repeat split; auto. discriminate.
Qed.

Lemma resolver_link_is_an_anchor_href_witness :
  exists link,
    In link (descendants split_text_page)
    /\ is_tag "a" link = true
    /\ get_href link = Some "/dl"
    /\ ([ByClass; ByString; ByText] = [ByClass] ->
        contains "Instant DL" (get_text link) = true)
    /\ ([ByClass; ByString; ByText] = [ByClass; ByString; ByText] ->
        instant_and_dl (get_text_strip link) = true).
Proof.
  apply (resolver_link_is_an_anchor_href split_text_page
           [ByClass; ByString; ByText] "/dl"). reflexivity.
Defined.

(** X4: when the first two searches find nothing, the resolver has tried
    all three, and it returns no link exactly when no anchor with an href
    has a stripped text that holds, lowercased, both "instant" and "dl". *)
Theorem resolver_absence (soup : node) :
  heuristic_1 soup = None ->
  heuristic_2 soup = None ->
  fst (find_instant_dl soup) = [ByClass; ByString; ByText]
  /\ (snd (find_instant_dl soup) = None
      <-> forall link, In link (find_all_a_href soup) ->
                       instant_and_dl (get_text_strip link) = false).
Proof.
  intros E1 E2. unfold find_instant_dl. rewrite E1, E2.
  unfold heuristic_3.
  destruct (find _ (find_all_a_href soup)) as [link|] eqn:Efind.
  - split; [reflexivity|]. cbn [snd].
    apply find_some in Efind as [Hin Hlink]. split.
    + intros Hnone. apply find_all_a_href_In in Hin as (_ & _ & Hhref).
      contradiction.
    + intros Hall.
      change (instant_and_dl (get_text_strip link) = true) in Hlink.
      rewrite (Hall link Hin) in Hlink. discriminate.
  - split; [reflexivity|]. cbn [snd]. split; [|reflexivity].
    intros _ link Hin. exact (find_none _ _ Efind link Hin).
Qed.

Lemma resolver_absence_witness :
  fst (find_instant_dl plain_page) = [ByClass; ByString; ByText]
  /\ (snd (find_instant_dl plain_page) = None
      <-> forall link, In link (find_all_a_href plain_page) ->
                       instant_and_dl (get_text_strip link) = false).
Proof.
  apply (resolver_absence plain_page); reflexivity.
Defined.

(** ** Dynamic Link Poller, the loop and the scan *)

Lemma forall_chars_app p a b :
  forall_chars p (a ++ b) = forall_chars p a && forall_chars p b.
Proof.
  induction a as [|c a IH]; [reflexivity|]. cbn [append forall_chars].
  rewrite IH. apply andb_assoc.
Qed.

Lemma span_spec p s :
  forall_chars p (fst (span p s)) = true
  /\ s = (fst (span p s) ++ snd (span p s))%string.
Proof.
  induction s as [|c s [IH1 IH2]]; [now split|]. cbn [span].
  destruct (p c) eqn:E; [|now split].
  destruct (span p s) as [a b]. cbn [fst snd] in *. split.
  - cbn [forall_chars]. now rewrite E, IH1.
  - cbn [append]. congruence.
Qed.

Lemma match_host_shape host s m :
  match_host host s = Some m ->
  exists path,
    m = (host ++ "/" ++ path)%string /\ path <> EmptyString
    /\ forall_chars url_char path = true
    /\ startswith s m = true.
Proof.
  unfold match_host.
  destruct (strip_prefix host s) as [r|] eqn:E1; [|discriminate].
  destruct (strip_prefix "/" r) as [r'|] eqn:E2; [|discriminate].
  destruct (span_spec url_char r') as [Hchars Hsplit].
  destruct (fst (span url_char r')) as [|c path] eqn:Epath; [discriminate|].
  cbn [is_empty]. intros [= <-].
  exists (String c path). repeat split; try assumption; try discriminate.
  apply strip_prefix_app in E1, E2. subst s r. rewrite Hsplit.
  apply startswith_app. exists (snd (span url_char r')).
  now rewrite !append_assoc.
Qed.

Lemma match_google_url_shape t m :
  match_google_url t = Some m ->
  exists p path,
    In p pattern_prefixes /\ m = (p ++ path)%string
    /\ path <> EmptyString /\ forall_chars url_char path = true
    /\ startswith t m = true.
Proof.
  assert (Hhosts : forall s m', match_hosts s = Some m' ->
            exists host path,
              (host = "video-downloads.googleusercontent.com"
               \/ host = "drive.google.com")
              /\ m' = ("://" ++ host ++ "/" ++ path)%string
              /\ path <> EmptyString /\ forall_chars url_char path = true
              /\ startswith s m' = true).
  { intros s m'. unfold match_hosts.
    destruct (strip_prefix "://" s) as [r|] eqn:E; [|discriminate].
    apply strip_prefix_app in E. subst s.
    destruct (match_host "video-downloads.googleusercontent.com" r)
      as [m1|] eqn:E1; cbn [first_some option_map].
    - intros [= <-].
      apply match_host_shape in E1 as (path & -> & Hne & Hch & Hpre).
      exists "video-downloads.googleusercontent.com", path.
      repeat split; auto.
    - destruct (match_host "drive.google.com" r) as [m2|] eqn:E2;
        [|discriminate].
      intros [= <-].
      apply match_host_shape in E2 as (path & -> & Hne & Hch & Hpre).
      exists "drive.google.com", path. repeat split; auto. }
  unfold match_google_url.
  destruct (strip_prefix "http" t) as [r|] eqn:E; [|discriminate].
  apply strip_prefix_app in E. subst t.
  assert (Hplain : forall m', match_hosts r = Some m' ->
            exists p path,
              In p pattern_prefixes /\ ("http" ++ m')%string = (p ++ path)%string
              /\ path <> EmptyString /\ forall_chars url_char path = true
              /\ startswith ("http" ++ r) ("http" ++ m') = true).
  { intros m' Hm. apply Hhosts in Hm
      as (host & path & Hhost & -> & Hne & Hch & Hpre).
    destruct Hhost as [-> | ->].
    - exists "http://video-downloads.googleusercontent.com/", path.
      repeat split; auto; cbn; auto.
    - exists "http://drive.google.com/", path.
      repeat split; auto; cbn; auto. }
  destruct (strip_prefix "s" r) as [r'|] eqn:Es.
  - destruct (match_hosts r') as [m1|] eqn:E1; cbn [first_some option_map].
    + intros [= <-]. apply strip_prefix_app in Es. subst r.
      apply Hhosts in E1 as (host & path & Hhost & -> & Hne & Hch & Hpre).
      destruct Hhost as [-> | ->].
      * exists "https://video-downloads.googleusercontent.com/", path.
        repeat split; auto; cbn; auto.
      * exists "https://drive.google.com/", path.
        repeat split; auto; cbn; auto.
    + destruct (match_hosts r) as [m2|] eqn:E2; [|discriminate].
      intros [= <-]. exact (Hplain _ eq_refl).
  - cbn [first_some option_map].
    destruct (match_hosts r) as [m2|] eqn:E2; [|discriminate].
    intros [= <-]. exact (Hplain _ eq_refl).
Qed.

Lemma pattern_prefix_netloc p path :
  In p pattern_prefixes ->
  contains "google" (urlparse_netloc (p ++ path)) = true.
Proof.
  intros [<-|[<-|[<-|[<-|[]]]]]; reflexivity.
Qed.

Lemma pattern_prefix_chars p : In p pattern_prefixes ->
  forall_chars url_char p = true.
Proof.
  intros [<-|[<-|[<-|[<-|[]]]]]; reflexivity.
Qed.

Lemma findall_from_suffix skip s m :
  In m (findall_from skip s) ->
  exists a t, s = (a ++ t)%string /\ match_google_url t = Some m.
Proof.
  revert skip; induction s as [|c s IH]; intros skip H; cbn [findall_from] in H.
  - contradiction.
  - assert (Hrest : forall k, In m (findall_from k s) ->
              exists a t, String c s = (a ++ t)%string
                          /\ match_google_url t = Some m).
    { intros k Hk. destruct (IH k Hk) as (a & t & -> & Ht).
      now exists (String c a), t. }
    destruct skip as [|k]; [|eauto].
    destruct (match_google_url (String c s)) as [m'|] eqn:E; [|eauto].
    destruct H as [<-|H]; [|eauto].
    now exists EmptyString, (String c s).
Qed.

(** X5: the test on the parsed host never rejects a match of the fallback
    pattern, so the scan of the final markup answers with the first match
    of the pattern, if there is one. *)
Theorem fallback_scan_takes_first_match (markup : string) :
  first_google_url (findall_google_urls markup)
  = hd_error (findall_google_urls markup).
Proof.
  destruct (findall_google_urls markup) as [|m rest] eqn:E; [reflexivity|].
  assert (Hin : In m (findall_google_urls markup)) by (rewrite E; now left).
  apply findall_from_suffix in Hin as (a & t & _ & Hm).
  apply match_google_url_shape in Hm as (p & path & Hp & -> & _).
  cbn [first_google_url hd_error].
  now rewrite pattern_prefix_netloc.
Qed.

(** X6: a URL the poller returns after a loop that found nothing occurs
    verbatim in the final markup and holds no quote, no [>] and no
    whitespace. *)
Theorem fallback_link_occurs_in_markup (max_wait_time : nat) (s : session)
  (url : string) :
  link_from_session max_wait_time s = Some url ->
  poll_loop max_wait_time (polls s) = Return None ->
  exists markup,
    content s = Return markup
    /\ contains url markup = true
    /\ forall_chars url_char url = true.
Proof.
  unfold link_from_session, link_in_page. intros H Hloop.
  rewrite Hloop in H.
  destruct (launch s) as [[]|e]; [|discriminate].
  destruct (teardown s) as [[]|e]; [|discriminate].
  destruct (goto s) as [[]|e]; [|discriminate].
  destruct (content s) as [markup|e]; [|discriminate].
  exists markup. split; [reflexivity|].
  apply first_google_url_In, findall_from_suffix in H
    as (front & t & -> & Hm).
  apply match_google_url_shape in Hm as (p & path & Hp & -> & _ & Hch & Hpre).
  split.
  - apply startswith_app in Hpre as [r ->].
    apply contains_iff. now exists front, r.
  - now rewrite forall_chars_app, pattern_prefix_chars, Hch.
Qed.

Lemma fallback_link_occurs_in_markup_witness :
  exists markup,
    content (exhausted_session plain_http_markup) = Return markup
    /\ contains "http://drive.google.com/file/1" markup = true
    /\ forall_chars url_char "http://drive.google.com/file/1" = true.
Proof.
  apply (fallback_link_occurs_in_markup 30
           (exhausted_session plain_http_markup)); reflexivity.
Defined.

Lemma poll_loop_budget budget budget' readings href :
  poll_loop budget readings = Return (Some href) ->
  budget <= budget' ->
  poll_loop budget' readings = Return (Some href).
Proof.
  intros H Hle.
  induction readings as [|[elapsed body] readings IH]; [discriminate|].
  cbn [poll_loop] in *.
  destruct (elapsed <? budget) eqn:E; [|discriminate].
  apply Nat.ltb_lt in E.
  assert (E' : (elapsed <? budget') = true) by (apply Nat.ltb_lt; lia).
  rewrite E'. destruct body as [links|e]; [|discriminate].
  destruct (scan_links links) as [[h|]|e]; auto.
Qed.

(** X7: a link the loop finds within a budget is still what the poller
    returns under any larger budget. *)
Theorem larger_budget_keeps_link (max_wait_time larger : nat) (s : session)
  (href : string) :
  link_from_session max_wait_time s = Some href ->
  poll_loop max_wait_time (polls s) = Return (Some href) ->
  max_wait_time <= larger ->
  link_from_session larger s = Some href.
Proof.
  unfold link_from_session, link_in_page. intros H Hloop Hle.
  destruct (launch s); [|discriminate].
  destruct (teardown s); [|discriminate].
  destruct (goto s); [|discriminate].
  now rewrite (poll_loop_budget _ _ _ _ Hloop Hle).
Qed.

Lemma larger_budget_keeps_link_witness :
  link_from_session 60 late_link_session
  = Some "https://drive.google.com/file/2".
Proof.
  apply (larger_budget_keeps_link 30 60 late_link_session);
    [reflexivity | reflexivity | repeat constructor].
Defined.

Lemma scan_links_fruitless hrefs rest :
  Forall (fun h => accepted h = false) hrefs ->
  scan_links (map seen hrefs ++ rest) = scan_links rest.
Proof.
  induction 1 as [|h hrefs Hh _ IH]; [reflexivity|].
  cbn [map app scan_links seen value]. rewrite Hh, andb_false_r. exact IH.
Qed.

Lemma accepted_truthy h : accepted h = true -> truthy (Some h) = true.
Proof. now destruct h. Qed.

(** X8: the loop returns the first accepted href, in the order of the
    page, of the first reading within the budget that has one; links that
    are not accepted, before it or in earlier readings, are passed
    over. *)
Theorem poll_loop_first_accepted (max_wait_time : nat)
  (before : list (nat * list string)) (elapsed : nat)
  (pre post : list string) (href : string)
  (after : list (nat * outcome (list (outcome (option string))))) :
  Forall (fruitless max_wait_time) before ->
  elapsed < max_wait_time ->
  Forall (fun h => accepted h = false) pre ->
  accepted href = true ->
  poll_loop max_wait_time
    (map reading before
     ++ (elapsed, Return (map seen (pre ++ href :: post))) :: after)
  = Return (Some href).
Proof.
  intros Hbefore Helapsed Hpre Hhref.
  induction Hbefore as [|[t hrefs] before [Ht Hhrefs] _ IH].
  - cbn [map app poll_loop].
    apply Nat.ltb_lt in Helapsed. rewrite Helapsed.
    rewrite map_app, (scan_links_fruitless _ _ Hpre).
    cbn [map scan_links seen value].
    now rewrite (accepted_truthy _ Hhref), Hhref.
  - cbn [map app poll_loop reading fst snd] in *.
    apply Nat.ltb_lt in Ht. rewrite Ht.
    rewrite <- (app_nil_r (map seen hrefs)).
    rewrite (scan_links_fruitless _ _ Hhrefs). exact IH.
Qed.

Lemma poll_loop_first_accepted_witness :
  poll_loop 30 (polls late_link_session)
  = Return (Some "https://drive.google.com/file/2").
Proof.
  apply (poll_loop_first_accepted 30 [(0, [ad_url]); (2, [ad_url])] 4
           [ad_url] [] "https://drive.google.com/file/2" []).
  - repeat constructor.
  - repeat constructor.
  - repeat constructor.
  - reflexivity.
Defined.

(** ** Pipeline Orchestrator, result by result *)

Lemma truthy_Some o :
  truthy o = true -> o = Some (value o) /\ value o <> EmptyString.
Proof. destruct o as [[|c s]|]; cbn; try discriminate. now split. Qed.

Lemma process_episode_result `{Collaborators} episode results w :
  exists r w',
    process_episode episode results w = (Return (results ++ [r]), w')
    /\ result_of episode r
    /\ results_file w' = results_file w.
Proof.
  unfold process_episode, try_except, extract_instant_dl_link, bind.
  destruct (fetch_page_returns (episode_url episode) w)
    as (html_content & w1 & -> & Hfile1).
  destruct (truthy html_content); cbn [negb];
    [|unfold ret; cbn [truthy negb]; eauto 6 using result_of].
  unfold lift.
  destruct (BeautifulSoup (value html_content)) as [soup|e];
    [|unfold ret; eauto 6 using result_of].
  unfold ret at 1.
  destruct (truthy (snd (find_instant_dl soup))) eqn:Einstant; cbn [negb];
    [|unfold ret; eauto 6 using result_of].
  apply truthy_Some in Einstant as [_ Hinstant].
  unfold extract_google_drive_link_with_browser, bind, call, ret.
  destruct (async_playwright (value (snd (find_instant_dl soup))) (outside w1))
    as [s e1].
  destruct (truthy (link_from_session 30 s)) eqn:Efinal; cbn [negb].
  - apply truthy_Some in Efinal as [Hsome Hfinal].
    cbn [outside results_file].
    destruct (datetime_now_isoformat e1) as [timestamp e2].
    do 2 eexists. split; [reflexivity|]. split; [|exact Hfile1].
    now apply result_success with (s := s).
  - do 2 eexists. split; [reflexivity|]. split; [|exact Hfile1].
    now constructor.
Qed.

Lemma process_episodes_results `{Collaborators} episode_links results w :
  exists rs w',
    process_episodes episode_links results w = (Return (results ++ rs), w')
    /\ Forall2 result_of episode_links rs
    /\ results_file w' = results_file w.
Proof.
  revert results w.
  induction episode_links as [|episode rest IH]; intros results w.
  - exists [], w. rewrite app_nil_r. repeat split. constructor.
  - cbn [process_episodes]. unfold bind.
    destruct (process_episode_result episode results w)
      as (r & w1 & -> & Hr & Hfile1).
    destruct (IH (results ++ [r]) w1) as (rs & w2 & -> & Hrs & Hfile2).
    exists (r :: rs), w2. rewrite <- app_assoc. cbn [app].
    repeat split; auto; congruence.
Qed.

(** A run that returns a result list ran the loop on the links the filter
    found in the page it fetched. *)
Lemma process_main_url_results `{Collaborators} main_url w rs w' :
  process_main_url main_url w = (Return (result_list rs), w') ->
  exists text links,
    extract_episode_links text main_url = Return links
    /\ Forall2 result_of links rs.
Proof.
  unfold process_main_url, bind.
  destruct (fetch_page_returns main_url w) as (html_content & w1 & -> & _).
  destruct (truthy html_content); cbn [negb]; [|discriminate].
  unfold lift.
  destruct (extract_episode_links (value html_content) main_url)
    as [[|episode rest]|e] eqn:Elinks; try discriminate.
  destruct (process_episodes_results (episode :: rest) [] w1)
    as (rs0 & w2 & -> & Hrs & _). cbn [app].
  destruct (save_results main_url rs0 w2) as [[[]|e] w3]; [|discriminate].
  unfold ret. intros [= <- _]. eauto.
Qed.

(** The steps of a run, after the fetch of the listing. *)
Lemma process_main_url_steps `{Collaborators} main_url w :
  exists html_content w1,
    fetch_page main_url w = (Return html_content, w1)
    /\ results_file w1 = results_file w
    /\ process_main_url main_url w
       = if truthy html_content then
           match extract_episode_links (value html_content) main_url with
           | Raise e => (Raise e, w1)
           | Return [] =>
               (Return (error_object "No episode links found"), w1)
           | Return (episode :: rest) =>
               match process_episodes (episode :: rest) [] w1 with
               | (Return rs, w2) =>
                   match save_results main_url rs w2 with
                   | (Return _, w3) => (Return (result_list rs), w3)
                   | (Raise e, w3) => (Raise e, w3)
                   end
               | (Raise e, w2) => (Raise e, w2)
               end
           end
         else (Return (error_object "Failed to fetch main page"), w1).
Proof.
  unfold process_main_url, bind.
  destruct (fetch_page_returns main_url w) as (html_content & w1 & -> & Hf).
  exists html_content, w1. split; [reflexivity|]. split; [exact Hf|].
  destruct (truthy html_content); cbn [negb]; [|reflexivity].
  unfold lift.
  destruct (extract_episode_links (value html_content) main_url)
    as [[|episode rest]|e]; reflexivity.
Qed.

Lemma Forall2_Forall_right {A B : Type} (R : A -> B -> Prop) (P : B -> Prop)
  (l : list A) (rs : list B) :
  (forall a r, R a r -> P r) -> Forall2 R l rs -> Forall P rs.
Proof. intros HRP. induction 1; constructor; eauto. Qed.

Lemma result_of_names_episode episode r :
  result_of episode r -> names_episode episode r.
Proof.
  unfold names_episode. destruct 1; cbn; split; auto.
  intros Hstatus. now elim Hstatus.
Qed.

Lemma result_of_well_shaped episode r : result_of episode r -> well_shaped r.
Proof.
  unfold well_shaped. destruct 1; cbn;
    repeat split; try discriminate; try congruence;
    intros Habs; now elim Habs.
Qed.

Lemma session_link_google budget s url :
  link_from_session budget s = Some url ->
  Exists (fun p => startswith url p = true) google_prefixes.
Proof.
  unfold link_from_session, link_in_page, google_prefixes.
  destruct (launch s) as [[]|e]; [|discriminate].
  destruct (teardown s) as [[]|e]; [|discriminate].
  destruct (goto s) as [[]|e]; [|discriminate].
  assert (Haccepted : forall u, accepted u = true ->
            Exists (fun p => startswith u p = true)
                   (video_downloads_prefix :: drive_prefix
                    :: plain_http_prefixes)).
  { intros u Hu. apply orb_prop in Hu as [Hu|Hu].
    - now apply Exists_cons_hd.
    - now apply Exists_cons_tl, Exists_cons_hd. }
  destruct (poll_loop budget (polls s)) as [[href|]|e] eqn:Hloop;
    [| |discriminate].
  - intros [= ->]. eauto using poll_loop_accepted.
  - destruct (content s) as [markup|e]; [|discriminate].
    intros H. apply first_google_url_In, findall_from_match in H as [t H].
    apply match_google_url_prefix in H as [H|H];
      [now apply Haccepted | now do 2 apply Exists_cons_tl].
Qed.

Lemma result_of_success_link episode r :
  result_of episode r -> success_link_is_google r.
Proof.
  unfold success_link_is_google. destruct 1; cbn; try discriminate.
  intros _. eauto using session_link_google.
Qed.

(** X9: a run that returns a result list fetched the listing, found its
    links with the filter in the fetched page and ran the loop on them:
    it returns one result for every such link, in page order; each result
    names its episode and, unless it failed, the page of the episode. *)
Theorem run_has_one_result_per_episode `{Collaborators} (main_url : string)
  (w w' : world) (rs : list dict) :
  process_main_url main_url w = (Return (result_list rs), w') ->
  exists text w1 links w2,
    fetch_page main_url w = (Return (Some text), w1)
    /\ extract_episode_links text main_url = Return links
    /\ process_episodes links [] w1 = (Return rs, w2)
    /\ Forall2 names_episode links rs.
Proof.
  intros Hrun.
  destruct (process_main_url_steps main_url w)
    as (html_content & w1 & Hfetch & _ & Hsteps).
  rewrite Hrun in Hsteps.
  destruct (truthy html_content) eqn:Etruthy; [|discriminate].
  apply truthy_Some in Etruthy as [Etext _]. rewrite Etext in Hfetch.
  destruct (extract_episode_links (value html_content) main_url)
    as [[|episode rest]|e] eqn:Elinks; try discriminate.
  destruct (process_episodes_results (episode :: rest) [] w1)
    as (rs0 & w2 & Hloop & Hrs & _). cbn [app] in Hloop.
  rewrite Hloop in Hsteps.
  destruct (save_results main_url rs0 w2) as [[[]|e] w3]; [|discriminate].
  injection Hsteps as -> _.
  exists (value html_content), w1, (episode :: rest), w2.
  repeat split; auto.
  eapply Forall2_impl; [|exact Hrs]. apply result_of_names_episode.
Qed.

Lemma run_has_one_result_per_episode_witness :
  exists text w1 links w2,
    @fetch_page (stub demo) "https://site.example/show" fresh_world
    = (Return (Some text), w1)
    /\ @extract_episode_links (stub demo) text "https://site.example/show"
       = Return links
    /\ @process_episodes (stub demo) links [] w1
       = (Return
            [success_result "Episode 1" "https://site.example/e1"
               "https://inter.example/1" "https://drive.google.com/file/2"
               "T3";
             partial_result "Episode 2" "https://site.example/e2"
               "https://inter.example/2"], w2)
    /\ Forall2 names_episode links
         [success_result "Episode 1" "https://site.example/e1"
            "https://inter.example/1" "https://drive.google.com/file/2" "T3";
          partial_result "Episode 2" "https://site.example/e2"
            "https://inter.example/2"].
Proof.
  exact (@run_has_one_result_per_episode (stub demo)
           "https://site.example/show" fresh_world (snd demo_run) _ eq_refl).
Defined.

(** X10: in every result a run returns the episode name is present, the
    error text is present except in the successes, the timestamp is
    present only in the successes, and the episode URL and the
    intermediate URL are present except in the failures. *)
Theorem run_results_well_shaped `{Collaborators} (main_url : string)
  (w w' : world) (rs : list dict) :
  process_main_url main_url w = (Return (result_list rs), w') ->
  Forall well_shaped rs.
Proof.
  intros Hrun.
  apply process_main_url_results in Hrun as (text & links & _ & Hrs).
  eapply Forall2_Forall_right; [|exact Hrs]. apply result_of_well_shaped.
Qed.

Lemma run_results_well_shaped_witness :
  Forall well_shaped
    [success_result "Episode 1" "https://site.example/e1"
       "https://inter.example/1" "https://drive.google.com/file/2" "T3";
     partial_result "Episode 2" "https://site.example/e2"
       "https://inter.example/2"].
Proof.
  exact (@run_results_well_shaped (stub demo) "https://site.example/show"
           fresh_world (snd demo_run) _ eq_refl).
Defined.

(** X11: the final link of every successful result a run returns begins
    with one of the two accepted https prefixes or with the plain-http
    form of one of the two hosts. *)
Theorem run_success_links_are_google `{Collaborators} (main_url : string)
  (w w' : world) (rs : list dict) :
  process_main_url main_url w = (Return (result_list rs), w') ->
  Forall success_link_is_google rs.
Proof.
  intros Hrun.
  apply process_main_url_results in Hrun as (text & links & _ & Hrs).
  eapply Forall2_Forall_right; [|exact Hrs]. apply result_of_success_link.
Qed.

Lemma run_success_links_are_google_witness :
  Forall success_link_is_google
    [success_result "Episode 1" "https://site.example/e1"
       "https://inter.example/1" "https://drive.google.com/file/2" "T3";
     partial_result "Episode 2" "https://site.example/e2"
       "https://inter.example/2"].
Proof.
  exact (@run_success_links_are_google (stub demo)
           "https://site.example/show" fresh_world (snd demo_run) _ eq_refl).
Defined.

(** ** Result Store, with a log already there *)

Lemma load_existing_reads `{Collaborators} w :
  snd (load_existing w) = w
  /\ forall w0, results_file w0 = results_file w ->
                fst (load_existing w0) = fst (load_existing w).
Proof.
  unfold load_existing. split.
  - destruct (results_file w) as [|c|err]; try reflexivity.
    destruct (is_empty c); [reflexivity|].
    destruct (json_loads c); reflexivity.
  - intros w0 ->. destruct (results_file w) as [|c|err]; try reflexivity.
    destruct (is_empty c); [reflexivity|].
    destruct (json_loads c); reflexivity.
Qed.

(** What [save_results] does once the record is built and the log is
    read. *)
Lemma save_results_steps `{Collaborators} url results w processed_at e :
  datetime_now_isoformat (outside w) = (processed_at, e) ->
  let w1 := {| outside := e; results_file := results_file w |} in
  save_results url results w
  = match make_data url processed_at results with
    | Raise err => (Raise err, w1)
    | Return data =>
        match fst (load_existing w) with
        | Return (JArray items) =>
            (Return tt,
             {| outside := e;
                results_file :=
                  Holds (json_dumps
                          (JArray (items ++ [run_record_json data]))) |})
        | Return existing => (Raise (no_attribute existing "append"), w1)
        | Raise err => (Raise err, w1)
        end
    end.
Proof.
  intros Hnow w1. unfold save_results, bind, call, lift. rewrite Hnow.
  fold w1. destruct (make_data url processed_at results) as [data|err];
    [|reflexivity].
  destruct (load_existing_reads w1) as [Hsnd Hfst].
  rewrite <- (proj2 (load_existing_reads w) w1 eq_refl).
  destruct (load_existing w1) as [[existing|err] w2]; cbn [fst snd] in *;
    subst w2; [|reflexivity].
  destruct existing; reflexivity.
Qed.

(** X12: when the log file holds a JSON list, saving results that all
    have a status keeps the records of the list, in their order, and puts
    the record of this run after them. *)
Theorem save_appends_to_the_log `{Collaborators} (main_url : string)
  (results : list dict) (w : world) (text : string) (items : list json) :
  Forall has_status results ->
  results_file w = Holds text ->
  text <> EmptyString ->
  json_loads text = Loaded (JArray items) ->
  exists processed_at e data,
    datetime_now_isoformat (outside w) = (processed_at, e)
    /\ make_data main_url processed_at results = Return data
    /\ save_results main_url results w
       = (Return tt,
          {| outside := e;
             results_file :=
               Holds (json_dumps
                       (JArray (items ++ [run_record_json data]))) |}).
Proof.
  intros Hresults Hfile Htext Hloads.
  destruct (datetime_now_isoformat (outside w)) as [processed_at e] eqn:Hnow.
  exists processed_at, e, (record_of main_url processed_at results).
  split; [reflexivity|]. split; [now apply make_data_tally|].
  rewrite (save_results_steps _ _ _ _ _ Hnow).
  rewrite make_data_tally by assumption.
  unfold load_existing. rewrite Hfile.
  destruct text; [congruence|]. cbn [is_empty]. now rewrite Hloads.
Qed.

Lemma save_appends_to_the_log_witness :
  exists processed_at e data,
    @datetime_now_isoformat logged (outside logged_world) = (processed_at, e)
    /\ make_data "https://site.example/show" processed_at one_failure
       = Return data
    /\ @save_results logged "https://site.example/show" one_failure
         logged_world
       = (Return tt,
          @Build_world logged e
            (Holds (dumps (JArray ([earlier_record]
                                  ++ [run_record_json data]))))).
Proof.
  apply (@save_appends_to_the_log logged "https://site.example/show"
           one_failure logged_world (dumps (JArray [earlier_record]))
           [earlier_record]).
  - repeat constructor. discriminate.
  - reflexivity.
  - discriminate.
  - reflexivity.
Defined.

(** X13: when the log file holds JSON that is not a list, saving raises
    and the file is left as it was, whatever the results. *)
Theorem save_raises_on_a_log_that_is_no_list `{Collaborators}
  (main_url : string) (results : list dict) (w : world) (text : string)
  (existing : json) :
  results_file w = Holds text ->
  text <> EmptyString ->
  json_loads text = Loaded existing ->
  (forall items, existing <> JArray items) ->
  exists err w',
    save_results main_url results w = (Raise err, w')
    /\ results_file w' = results_file w.
Proof.
  intros Hfile Htext Hloads Hnolist.
  destruct (datetime_now_isoformat (outside w)) as [processed_at e] eqn:Hnow.
  rewrite (save_results_steps _ _ _ _ _ Hnow).
  destruct (make_data main_url processed_at results) as [data|err];
    [|eauto].
  unfold load_existing. rewrite Hfile.
  destruct text; [congruence|]. cbn [is_empty fst]. rewrite Hloads.
  destruct existing as [| | | |items|];
    try (now elim (Hnolist items)); cbn [fst]; eauto.
Qed.

Lemma save_raises_on_a_log_that_is_no_list_witness :
  exists err w',
    @save_results logged "https://site.example/show" one_failure object_world
    = (Raise err, w')
    /\ results_file w' = results_file object_world.
Proof.
  apply (@save_raises_on_a_log_that_is_no_list logged
           "https://site.example/show" one_failure object_world
           (dumps (JObject [])) (JObject []));
    first [reflexivity | discriminate].
Defined.

Lemma count_status_missing status results :
  Exists (fun r => dict_get "status" r = None) results ->
  count_status status results = Raise "'status'".
Proof.
  induction results as [|r results IH]; intros Hex;
    [inversion Hex|].
  cbn [count_status].
  destruct (dict_get "status" r) as [v|] eqn:E; [|reflexivity].
  inversion Hex as [? ? Hr|? ? Hrest]; subst; [congruence|].
  now rewrite (IH Hrest).
Qed.

(** X14: given a result without a status field, saving raises the key
    error before it reads or writes the file. *)
Theorem save_raises_on_a_missing_status `{Collaborators} (main_url : string)
  (results : list dict) (w : world) :
  Exists (fun r => dict_get "status" r = None) results ->
  exists w',
    save_results main_url results w = (Raise "'status'", w')
    /\ results_file w' = results_file w.
Proof.
  intros Hmissing.
  destruct (datetime_now_isoformat (outside w)) as [processed_at e] eqn:Hnow.
  rewrite (save_results_steps _ _ _ _ _ Hnow).
  unfold make_data. rewrite (count_status_missing _ _ Hmissing).
  cbn [bind_outcome]. eauto.
Qed.

Lemma save_raises_on_a_missing_status_witness :
  exists w',
    @save_results (stub demo) "https://site.example/show"
      [[("episode", "Episode 1")]] fresh_world
    = (Raise "'status'", w')
    /\ results_file w' = results_file fresh_world.
Proof.
  apply (@save_raises_on_a_missing_status (stub demo)
           "https://site.example/show" [[("episode", "Episode 1")]]
           fresh_world).
  now apply Exists_cons_hd.
Defined.

(** ** The endpoints *)

(** X15: after a save that found the list [items] in the log, the history
    endpoint answers with [items] followed by the record of the run,
    provided the decoder reads back what the encoder wrote for that
    list. *)
Theorem saved_log_is_read_back `{Collaborators} (main_url : string)
  (results : list dict) (w : world) (processed_at : string) (e : env)
  (data : run_record) (items : list json) :
  datetime_now_isoformat (outside w) = (processed_at, e) ->
  make_data main_url processed_at results = Return data ->
  fst (load_existing w) = Return (JArray items) ->
  json_loads (json_dumps (JArray (items ++ [run_record_json data])))
  = Loaded (JArray (items ++ [run_record_json data])) ->
  exists w',
    save_results main_url results w = (Return tt, w')
    /\ get_results w'
       = (Return (JArray (items ++ [run_record_json data])), w').
Proof.
  intros Hnow Hdata Hload Hcodec.
  rewrite (save_results_steps _ _ _ _ _ Hnow), Hdata, Hload.
  eexists. split; [reflexivity|].
  unfold get_results. cbn [results_file]. now rewrite Hcodec.
Qed.

Lemma saved_log_is_read_back_witness :
  exists w',
    @save_results logged "https://site.example/show" one_failure logged_world
    = (Return tt, w')
    /\ @get_results logged w' = (Return later_log, w').
Proof.
  apply (@saved_log_is_read_back logged "https://site.example/show"
           one_failure logged_world "T5" 6
           (record_of "https://site.example/show" "T5" one_failure)
           [earlier_record]); reflexivity.
Defined.

(** X16: with a decoder that rejects the empty text, the history endpoint
    answers the very value the next save starts from whenever the load of
    [save_results] returns one: the decoded file, or the empty list when
    the file is missing, empty or rejected with a [JSONDecodeError].
    Where that load raises, on a file that does not decode or on another
    exception of the decoder, the endpoint answers the empty list. *)
Theorem history_is_what_save_extends `{Collaborators} (w : world) :
  json_loads EmptyString = JSONDecodeError ->
  match load_existing w with
  | (Return existing, _) => get_results w = (Return existing, w)
  | (Raise _, _) => get_results w = (Return (JArray []), w)
  end.
Proof.
  intros Hempty. unfold get_results, load_existing.
  destruct (results_file w) as [|[|c content]|err]; try reflexivity.
  - cbn [is_empty]. now rewrite Hempty.
  - cbn [is_empty]. destruct (json_loads (String c content)); reflexivity.
Qed.

Lemma history_is_what_save_extends_witness :
  @get_results logged logged_world
  = (Return (JArray [earlier_record]), logged_world).
Proof.
  exact (@history_is_what_save_extends logged logged_world eq_refl).
Defined.

(** X17: for a request whose body is an object with a non-empty string
    under "url", the processing endpoint answers with what the run
    returned, and with an error object carrying the message when the run
    raised; it never raises itself. *)
Theorem process_url_reports_the_run `{Collaborators}
  (fields : list (string * json)) (main_url : string) (w : world) :
  json_get "url" fields = Some (JString main_url) ->
  main_url <> EmptyString ->
  process_url (Return (JObject fields)) w
  = match process_main_url main_url w with
    | (Return o, w') => (Return (run_output_json o), w')
    | (Raise e, w') => (Return (JObject [("error", JString e)]), w')
    end.
Proof.
  intros Hurl Hne. unfold process_url, try_except, bind, lift, ret.
  rewrite Hurl. cbn [json_truthy].
  destruct main_url; [congruence|]. cbn [is_empty negb].
  destruct (process_main_url _ w) as [[o|e] w']; reflexivity.
Qed.

Lemma process_url_reports_the_run_witness :
  @process_url (stub demo)
    (Return (JObject [("url", JString "https://site.example/gone")]))
    fresh_world
  = (Return (JObject [("error", JString "Failed to fetch main page")]),
     @Build_world (stub demo) 1 Missing).
Proof.
  exact (@process_url_reports_the_run (stub demo)
           [("url", JString "https://site.example/gone")]
           "https://site.example/gone" fresh_world eq_refl
           ltac:(discriminate)).
Defined.

(** X18: a request whose body could not be decoded, is no object, or has
    nothing truthy under "url" is answered with an error object and the
    world is left as it was: no page is fetched and the log is not
    touched. *)
Theorem process_url_without_url `{Collaborators} (request_json : outcome json)
  (w : world) :
  (forall fields u,
      request_json = Return (JObject fields) ->
      json_get "url" fields = Some u -> json_truthy u = false) ->
  exists error,
    process_url request_json w
    = (Return (JObject [("error", JString error)]), w).
Proof.
  intros Hno. unfold process_url, try_except, bind, lift, ret.
  destruct request_json as [data|e]; [|eauto].
  destruct data as [| | | | |fields]; try (eexists; reflexivity).
  destruct (json_get "url" fields) as [u|] eqn:Eu;
    [|eexists; reflexivity].
  rewrite (Hno fields u eq_refl Eu). eexists. reflexivity.
Qed.

Lemma process_url_without_url_witness :
  exists error,
    @process_url (stub demo)
      (Return (JObject [("url", JString EmptyString)])) fresh_world
    = (Return (JObject [("error", JString error)]), fresh_world).
Proof.
  apply (@process_url_without_url (stub demo)).
  intros fields u [= <-]. cbn. now intros [= <-].
Defined.

(** ** File download endpoint, whatever the directory asked for *)

Lemma basename_drops_directory dir name :
  contains "/" name = false ->
  basename (dir ++ "/" ++ name) = name.
Proof.
  intros Hname. induction dir as [|c dir IH]; cbn [append basename].
  - now rewrite Hname.
  - assert (H : contains "/" (dir ++ String "/" name) = true)
      by (apply contains_iff; now exists dir, name).
    now rewrite H.
Qed.

Lemma basename_without_slash name :
  contains "/" name = false -> basename name = name.
Proof.
  destruct name as [|c name]; [reflexivity|].
  rewrite contains_slash_cons. intros H.
  apply orb_false_elim in H as [Hc Hname].
  cbn [basename]. now rewrite Hname, Hc.
Qed.

(** X19: the directory part of the requested name has no effect: a name
    behind any directory prefix is answered like the bare name. *)
Theorem download_ignores_directory (fs : filesystem) (dir name : string) :
  contains "/" name = false ->
  name <> EmptyString ->
  download_file fs (Some (dir ++ "/" ++ name)%string)
  = download_file fs (Some name).
Proof.
  intros Hslash Hne. unfold download_file. cbn [value].
  rewrite (basename_drops_directory dir name Hslash).
  rewrite (basename_without_slash name Hslash).
  assert (Hdir : truthy (Some (dir ++ "/" ++ name)%string) = true)
    by (destruct dir; reflexivity).
  assert (Hname : truthy (Some name) = true)
    by (destruct name; [congruence | reflexivity]).
  now rewrite Hdir, Hname.
Qed.

Lemma download_ignores_directory_witness :
  download_file one_file_fs (Some "../../etc/extracted_links.json")
  = download_file one_file_fs (Some "extracted_links.json").
Proof.
  apply (download_ignores_directory one_file_fs "../../etc"
           "extracted_links.json"); [reflexivity | discriminate].
Defined.

(** ** Request interception *)

(** X20: a request is aborted exactly when its URL holds one of the seven
    ad domains somewhere, be it in the host, the path or the query; so a
    URL that embeds an aborted URL is aborted too. *)
Theorem block_ads_aborts_on_substring (request_url : string) :
  (block_ads request_url = route_abort
   <-> exists ad_domain a b,
         In ad_domain ad_domains
         /\ request_url = (a ++ ad_domain ++ b)%string)
  /\ (block_ads request_url = route_abort ->
      forall a b, block_ads (a ++ request_url ++ b) = route_abort).
Proof.
  assert (Hiff : forall u,
            block_ads u = route_abort
            <-> exists ad_domain a b,
                  In ad_domain ad_domains /\ u = (a ++ ad_domain ++ b)%string).
  { intros u. unfold block_ads.
    destruct (existsb (fun d => contains d u) ad_domains) eqn:E.
    - split; [intros _|reflexivity].
      apply existsb_exists in E as (d & Hin & Hd).
      apply contains_iff in Hd as (a & b & ->). eauto.
    - split; [discriminate|]. intros (d & a & b & Hin & ->).
      assert (Hd : existsb (fun x => contains x (a ++ d ++ b)) ad_domains
                   = true).
      { apply existsb_exists. exists d. split; [exact Hin|].
        apply contains_iff. eauto. }
      congruence. }
  split; [apply Hiff|].
  intros Habort a b. apply Hiff in Habort as (d & x & y & Hin & ->).
  apply Hiff. exists d, (a ++ x)%string, (y ++ b)%string.
  split; [exact Hin|]. now rewrite !append_assoc.
Qed.

Lemma block_ads_aborts_on_substring_witness :
  block_ads "https://drive.google.com/open?next=https://adf.ly/x&id=1"
  = route_abort.
Proof.
  apply (proj2 (block_ads_aborts_on_substring "https://adf.ly/x")
           eq_refl "https://drive.google.com/open?next=" "&id=1").
Defined.

(** ** Page Fetcher and the ways a run ends *)

(** X21: fetching never raises and never touches the log; it answers with
    a body exactly when the transport answered with the status 200 and
    that body. *)
Theorem fetch_page_only_on_200 `{Collaborators} (url : string) (w : world) :
  exists html_content w',
    fetch_page url w = (Return html_content, w')
    /\ results_file w' = results_file w
    /\ forall text,
         html_content = Some text
         <-> exists e, session_get url (outside w) = (Return (200, text), e).
Proof.
  unfold fetch_page, bind, call, ret.
  destruct (session_get url (outside w)) as [[[status text]|err] e].
  - destruct (status =? 200) eqn:E.
    + apply Nat.eqb_eq in E. subst status.
      do 2 eexists. repeat split; try reflexivity.
      * intros [= ->]. eauto.
      * intros [e' [= -> _]]. reflexivity.
    + apply Nat.eqb_neq in E.
      do 2 eexists. repeat split; try reflexivity; try discriminate.
      intros [e' [= Hs _ _]]. contradiction.
  - do 2 eexists. repeat split; try reflexivity; try discriminate.
    intros [e' Habs]. discriminate.
Qed.

(** X22: a run answers with an error object only in two cases: the
    message is "Failed to fetch main page" and the fetch gave nothing or
    an empty body, or it is "No episode links found" and the filter found
    no link in the non-empty page. *)
Theorem run_error_only_on_abort `{Collaborators} (main_url error : string)
  (w w' : world) :
  process_main_url main_url w = (Return (error_object error), w') ->
  exists html_content,
    fetch_page main_url w = (Return html_content, w')
    /\ ((truthy html_content = false
         /\ error = "Failed to fetch main page")
        \/ (truthy html_content = true
            /\ extract_episode_links (value html_content) main_url
               = Return []
            /\ error = "No episode links found")).
Proof.
  unfold process_main_url, bind.
  destruct (fetch_page_returns main_url w) as (html_content & w1 & -> & _).
  destruct (truthy html_content) eqn:Etruthy; cbn [negb].
  - unfold lift.
    destruct (extract_episode_links (value html_content) main_url)
      as [[|episode rest]|e] eqn:Elinks; try discriminate.
    + unfold ret. intros [= <- <-]. eauto 6.
    + destruct (process_episodes (episode :: rest) [] w1) as [[rs|e] w2];
        [|discriminate].
      destruct (save_results main_url rs w2) as [[[]|e] w3]; discriminate.
  - unfold ret. intros [= <- <-]. eauto 6.
Qed.

Lemma run_error_only_on_abort_witness :
  exists html_content,
    @fetch_page (stub demo) "https://site.example/bare" fresh_world
    = (Return html_content, @Build_world (stub demo) 1 Missing)
    /\ ((truthy html_content = false
         /\ "No episode links found" = "Failed to fetch main page")
        \/ (truthy html_content = true
            /\ @extract_episode_links (stub demo) (value html_content)
                 "https://site.example/bare" = Return []
            /\ "No episode links found" = "No episode links found")).
Proof.
  apply (@run_error_only_on_abort (stub demo) "https://site.example/bare"
           "No episode links found" fresh_world). reflexivity.
Defined.

(** X23: a run raises only in two places, and the log file is then as
    it was: out of the filter on the page it fetched, when the parser
    rejects the listing or [urljoin] an href; or out of [save_results] on
    the results the loop returned for the links of that page. *)
Theorem run_raises_only_from_filter_or_save `{Collaborators}
  (main_url e : string) (w w' : world) :
  process_main_url main_url w = (Raise e, w') ->
  results_file w' = results_file w
  /\ exists text w1,
       fetch_page main_url w = (Return (Some text), w1)
       /\ ((extract_episode_links text main_url = Raise e /\ w' = w1)
           \/ (exists links rs w2,
                  extract_episode_links text main_url = Return links
                  /\ process_episodes links [] w1 = (Return rs, w2)
                  /\ save_results main_url rs w2 = (Raise e, w'))).
Proof.
  intros Hrun.
  destruct (process_main_url_cases main_url w) as (o & w0 & Hrun0 & Hcases).
  rewrite Hrun in Hrun0. injection Hrun0 as <- <-.
  split.
  { destruct Hcases as [[Hsame _]|(rs & _ & _ & _ & Habs & _)];
      [exact Hsame | discriminate]. }
  clear Hcases.
  destruct (process_main_url_steps main_url w)
    as (html_content & w1 & Hfetch & _ & Hsteps).
  rewrite Hrun in Hsteps.
  destruct (truthy html_content) eqn:Etruthy; [|discriminate].
  apply truthy_Some in Etruthy as [Etext _]. rewrite Etext in Hfetch.
  exists (value html_content), w1. split; [exact Hfetch|].
  destruct (extract_episode_links (value html_content) main_url)
    as [[|episode rest]|err] eqn:Elinks; try discriminate.
  - right.
    destruct (process_episodes_results (episode :: rest) [] w1)
      as (rs & w2 & Hloop & _). cbn [app] in Hloop. rewrite Hloop in Hsteps.
    destruct (save_results main_url rs w2) as [[[]|err] w3] eqn:Esave;
      [discriminate|].
    injection Hsteps as -> ->. exists (episode :: rest), rs, w2. auto.
  - left. injection Hsteps as -> ->. auto.
Qed.

Lemma run_raises_only_from_filter_or_save_witness :
  let run := @process_main_url logged "https://site.example/show"
               object_world in
  results_file (snd run) = results_file object_world
  /\ exists text w1,
       @fetch_page logged "https://site.example/show" object_world
       = (Return (Some text), w1)
       /\ ((@extract_episode_links logged text "https://site.example/show"
            = Raise "'dict' object has no attribute 'append'"
            /\ snd run = w1)
           \/ (exists links rs w2,
                  @extract_episode_links logged text
                    "https://site.example/show" = Return links
                  /\ @process_episodes logged links [] w1 = (Return rs, w2)
                  /\ @save_results logged "https://site.example/show" rs w2
                     = (Raise "'dict' object has no attribute 'append'",
                        snd run))).
Proof.
  apply (@run_raises_only_from_filter_or_save logged
           "https://site.example/show"
           "'dict' object has no attribute 'append'" object_world).
  reflexivity.
Defined.

(** X24: an exception of the parser on the page of one episode does not
    leave the loop: the episode gets a failed result that carries the
    message of the exception, and the log is not touched. *)
Theorem episode_exception_is_recorded `{Collaborators}
  (episode : episode_link) (results : list dict) (w : world)
  (text err : string) (e : env) :
  session_get (episode_url episode) (outside w) = (Return (200, text), e) ->
  text <> EmptyString ->
  BeautifulSoup text = Raise err ->
  process_episode episode results w
  = (Return (results ++ [failed_result (episode_name episode) err]),
     {| outside := e; results_file := results_file w |}).
Proof.
  intros Hget Htext Hparse.
  unfold process_episode, try_except, extract_instant_dl_link, fetch_page,
    bind, call, lift, ret.
  rewrite Hget. cbn [Nat.eqb truthy value].
  destruct text; [congruence|]. cbn [is_empty negb outside results_file].
  now rewrite Hparse.
Qed.

Lemma episode_exception_is_recorded_witness :
  @process_episode (stub garbled) ninth_episode []
    (@Build_world (stub garbled) 0 Missing)
  = (Return [failed_result "Episode 9" "ParserRejectedMarkup"],
     @Build_world (stub garbled) 1 Missing).
Proof.
  apply (@episode_exception_is_recorded (stub garbled) ninth_episode []
           (@Build_world (stub garbled) 0 Missing) "<<garbled"
           "ParserRejectedMarkup" 1);
    first [reflexivity | discriminate].
Defined.
